(** * Self-tracking application: chart synchronisation, experiments, votes

    A shallow embedding of the analysis and orchestration code of the
    application:

    - the data page (dual-metric chart): axis synchronisation and the
      correlation score;
    - the community server actions: casting a vote;
    - the experiment results dialog and the group statistics it displays;
    - the lab page: experiment status transitions.

    JavaScript numbers are modelled as exact rationals ([Q]): arithmetic is
    the exact one, [===] on numbers is [Qeq_bool], and [null]/[undefined]
    are [None].  Rounding error of binary64 and the non-finite values
    ([NaN], [Infinity]) are outside this model. *)

From Stdlib Require Import ZArith QArith Qround Qminmax Qabs.
From Stdlib Require Import List String Ascii Bool Lia Lqa DecimalString.
Import ListNotations.

Local Open Scope Q_scope.

(* ================================================================== *)
(** ** JavaScript built-ins used by the code *)

Module Js.

Definition number := Q.

(** [Math.max(a, b)]. *)
Definition Math_max (a b : number) : number := Qmax a b.

(** [Math.max(...vs)] for a non-empty array [v :: vs]. *)
Definition Math_max_spread (v : number) (vs : list number) : number :=
  fold_left Math_max vs v.

(** [Math.round(x)]: the integer nearest to [x], ties towards +infinity. *)
Definition Math_round (x : number) : Z := Qfloor (x + 0.5).

Definition Math_abs (x : number) : number := Qabs x.

(** [n.toString()] for an integer-valued number. *)
Definition toString (n : Z) : string := NilZero.string_of_int (Z.to_int n).

(** [x.toFixed(1)]: sign, then the integer [n] nearest to [|x| * 10]
    (the larger one on a tie) written with one digit after the point.
    This is the ECMAScript algorithm for magnitudes below [10^21]. *)
Definition toFixed1 (x : number) : string :=
  let neg := match Qcompare x 0 with Lt => true | _ => false end in
  let n := Qfloor (Qabs x * 10 + 0.5) in
  ((if neg then "-" else "") ++
   toString (n / 10) ++ "." ++ toString (n mod 10))%string.

(** [a === b] on numbers. *)
Definition strict_eq (a b : number) : bool := Qeq_bool a b.

(** [a >= b], [a > b], [a < b] on numbers. *)
Definition ge (a b : number) : bool := Qle_bool b a.
Definition lt (a b : number) : bool := negb (Qle_bool b a).
Definition gt (a b : number) : bool := negb (Qle_bool a b).

(** [Math.min(a, b)] and [Math.min(...vs)] for a non-empty array. *)
Definition Math_min (a b : number) : number := Qmin a b.

Definition Math_min_spread (v : number) (vs : list number) : number :=
  fold_left Math_min vs v.

(** [Math.ceil(x)]. *)
Definition Math_ceil (x : number) : Z := Qceiling x.

(** *** Dates, as milliseconds since the epoch *)

(** [1000 * 60 * 60 * 24] *)
Definition msPerDay : Z := 1000 * 60 * 60 * 24.

(** [date.setHours(0, 0, 0, 0)] and [date.setHours(23, 59, 59, 999)] in a
    time zone whose local time stays [offset] milliseconds ahead of UTC
    over the dates concerned.  A zone that changes its offset between
    them (daylight saving) is outside this model: there local midnights
    are not whole days apart. *)
Definition setHours_start (offset t : Z) : Z := (t - (t + offset) mod msPerDay)%Z.

Definition setHours_end (offset t : Z) : Z :=
  (setHours_start offset t + (msPerDay - 1))%Z.

(** [ms / (1000 * 60 * 60 * 24)] *)
Definition toDays (ms : Z) : number := inject_Z ms / inject_Z msPerDay.

End Js.

(* ================================================================== *)
(** ** Shared types ([@/lib/types]) *)

Inductive MetricType := NUMERIC | SCALE_1_10 | BOOLEAN | TEXT.
Inductive Category := INPUT | OUTPUT.

Record TrackableItem := {
  item_id : string;
  item_name : string;
  item_category : Category;
  item_type : MetricType
}.

Definition MetricType_eqb (a b : MetricType) : bool :=
  match a, b with
  | NUMERIC, NUMERIC | SCALE_1_10, SCALE_1_10
  | BOOLEAN, BOOLEAN | TEXT, TEXT => true
  | _, _ => false
  end.

(* ================================================================== *)
(** ** The data page: axis synchronisation and correlation score *)

Module DataPage.
Import Js.

(** One record per day.  [normalizedComparisonValue] is an optional
    property: [None] when absent, [Some None] when present and [null]. *)
Record DualMetricChartData := {
  date : string;
  formattedDate : string;
  primaryValue : option number;
  comparisonValue : option number;
  normalizedComparisonValue : option (option number)
}.

Record AxisConfig := {
  leftDomain : number * number;
  rightDomain : number * number;
  rightTickFormatter : option (number -> string);
  rightTicks : option (list number);
  normalizeComparison : bool
}.

(** [allItems.find(item => item.id === id)] *)
Definition findItem (allItems : list TrackableItem) (id : string)
  : option TrackableItem :=
  find (fun item => String.eqb (item_id item) id) allItems.

(** [rows.map(d => d.f).filter(v => v !== null && v !== undefined)] *)
Definition definedValues (f : DualMetricChartData -> option number)
           (rows : list DualMetricChartData) : list number :=
  flat_map (fun d => match f d with Some v => [v] | None => [] end) rows.

(** [values.length > 0 ? Math.max(...values) : 10] *)
Definition maxOrDefault (values : list number) : number :=
  match values with
  | [] => 10
  | v :: vs => Math_max_spread v vs
  end.

Definition primaryMax (rows : list DualMetricChartData) : number :=
  maxOrDefault (definedValues primaryValue rows).

Definition comparisonMax (rows : list DualMetricChartData) : number :=
  maxOrDefault (definedValues comparisonValue rows).

(** Scenario A: the right axis shows 1-10 labels on the left axis range. *)
Definition scenarioA_formatter (scaledMax : number) (value : number) : string :=
  let scaleValue := Math_round ((value / scaledMax) * 10) in
  if ((1 <=? scaleValue) && (scaleValue <=? 10))%Z
  then toString scaleValue else ""%string.

(** [Array.from({ length: 10 }, (_, i) => ((i + 1) / 10) * scaledMax)] *)
Definition scenarioA_ticks (scaledMax : number) : list number :=
  map (fun i : nat => (inject_Z (Z.of_nat i + 1) / 10) * scaledMax) (seq 0 10).

(** Scenario C: booleans drawn on the 1-10 scale. *)
Definition normalizeBoolean (d : DualMetricChartData) : DualMetricChartData :=
  {| date := date d;
     formattedDate := formattedDate d;
     primaryValue := primaryValue d;
     comparisonValue := comparisonValue d;
     normalizedComparisonValue :=
       Some (match comparisonValue d with
             | Some v => if strict_eq v 1 then Some 7.5
                         else if strict_eq v 0 then Some 2.5
                         else None
             | None => None
             end) |}.

Definition scenarioC_formatter (value : number) : string :=
  if lt (Math_abs (value - 7.5)) 0.5 then "Yes"%string
  else if lt (Math_abs (value - 2.5)) 0.5 then "No"%string
  else ""%string.

(** The memo computing [{ chartData, axisConfig }]. *)
Definition axisSync (primaryMetric comparisonMetric : option TrackableItem)
           (rawChartData : list DualMetricChartData)
  : list DualMetricChartData * option AxisConfig :=
  match primaryMetric, rawChartData with
  | None, _ | _, [] => (rawChartData, None)
  | Some pm, _ :: _ =>
    let pMax := primaryMax rawChartData in
    let cMax := comparisonMax rawChartData in
    match comparisonMetric with
    | None =>
      (rawChartData,
       Some {| leftDomain := if MetricType_eqb (item_type pm) SCALE_1_10
                             then (1, 10)
                             else (0, Math_max (pMax * 1.1) 1);
               rightDomain := (0, 10);
               rightTickFormatter := None;
               rightTicks := None;
               normalizeComparison := false |})
    | Some cm =>
      if MetricType_eqb (item_type pm) NUMERIC
         && MetricType_eqb (item_type cm) SCALE_1_10 then
        let scaledMax := Math_max (pMax * 1.1) 1 in
        (rawChartData,
         Some {| leftDomain := (0, scaledMax);
                 rightDomain := (0, scaledMax);
                 rightTickFormatter := Some (scenarioA_formatter scaledMax);
                 rightTicks := Some (scenarioA_ticks scaledMax);
                 normalizeComparison := false |})
      else if MetricType_eqb (item_type pm) SCALE_1_10
              && MetricType_eqb (item_type cm) NUMERIC then
        (rawChartData,
         Some {| leftDomain := (1, 10);
                 rightDomain := (0, Math_max (cMax * 1.1) 1);
                 rightTickFormatter := None;
                 rightTicks := None;
                 normalizeComparison := false |})
      else if MetricType_eqb (item_type pm) SCALE_1_10
              && MetricType_eqb (item_type cm) BOOLEAN then
        (map normalizeBoolean rawChartData,
         Some {| leftDomain := (1, 10);
                 rightDomain := (1, 10);
                 rightTickFormatter := Some scenarioC_formatter;
                 rightTicks := Some [2.5; 7.5];
                 normalizeComparison := true |})
      else
        let leftMax := if MetricType_eqb (item_type pm) SCALE_1_10
                       then 10 else Math_max (pMax * 1.1) 1 in
        let rightMax := if MetricType_eqb (item_type cm) SCALE_1_10
                        then 10 else Math_max (cMax * 1.1) 1 in
        (rawChartData,
         Some {| leftDomain := if MetricType_eqb (item_type pm) SCALE_1_10
                               then (1, 10) else (0, leftMax);
                 rightDomain := if MetricType_eqb (item_type cm) SCALE_1_10
                                then (1, 10) else (0, rightMax);
                 rightTickFormatter := None;
                 rightTicks := None;
                 normalizeComparison := false |})
    end
  end.

Definition chartData pm cm raw := fst (axisSync pm cm raw).
Definition axisConfig pm cm raw := snd (axisSync pm cm raw).

(** The days on which both metrics have a value, in order (the inner join
    on date of the two series), as (primary, comparison) pairs. *)
Definition innerJoin (rows : list DualMetricChartData)
  : list (number * number) :=
  flat_map (fun d => match primaryValue d, comparisonValue d with
                     | Some p, Some c => [(p, c)]
                     | _, _ => []
                     end) rows.

Section Correlation.

(** [calculatePearsonCorrelation] of [@/lib/correlation], which is not
    among the sources: the page only calls it. *)
Variable calculatePearsonCorrelation :
  list number -> list number -> option number.

(** The body of [chartData.forEach]: both arrays grow together, and only
    for a data point where both values are present. *)
Definition pushPair (acc : list number * list number)
           (dataPoint : DualMetricChartData) : list number * list number :=
  match primaryValue dataPoint, comparisonValue dataPoint with
  | Some p, Some c => (fst acc ++ [p], snd acc ++ [c])
  | _, _ => acc
  end.

Definition pairedArrays (chartData : list DualMetricChartData)
  : list number * list number :=
  fold_left pushPair chartData ([], []).

(** The memo computing [correlationScore]. *)
Definition correlationScore
           (primaryMetric comparisonMetric : option TrackableItem)
           (comparisonMetricId : string)
           (chartData : list DualMetricChartData) : option number :=
  match primaryMetric, comparisonMetric with
  | Some _, Some _ =>
    if String.eqb comparisonMetricId "none" || (List.length chartData =? 0)%nat
    then None
    else
      let (primaryValues, comparisonValues) := pairedArrays chartData in
      if (2 <=? List.length primaryValues)%nat
      then calculatePearsonCorrelation primaryValues comparisonValues
      else None
  | _, _ => None
  end.

(** The page: both memos chained, from the component's state. *)
Definition pageCorrelationScore (allItems : list TrackableItem)
           (primaryMetricId comparisonMetricId : string)
           (rawChartData : list DualMetricChartData) : option number :=
  let primaryMetric := findItem allItems primaryMetricId in
  let comparisonMetric := findItem allItems comparisonMetricId in
  correlationScore primaryMetric comparisonMetric comparisonMetricId
                   (chartData primaryMetric comparisonMetric rawChartData).

(** The score as the specification words it: null without a selected comparison
    metric, on empty chart data and with fewer than two paired points;
    otherwise the coefficient of the inner join of the two series. *)
Definition correlationScore_spec
           (primaryMetric comparisonMetric : option TrackableItem)
           (comparisonMetricId : string)
           (chartData : list DualMetricChartData) : option number :=
  let paired := innerJoin chartData in
  match primaryMetric, comparisonMetric with
  | Some _, Some _ =>
    if String.eqb comparisonMetricId "none" then None
    else match chartData with
         | [] => None
         | _ :: _ =>
           if (List.length paired <? 2)%nat then None
           else calculatePearsonCorrelation (map fst paired) (map snd paired)
         end
  | _, _ => None
  end.

End Correlation.

(** [m] is the maximum of the values [vs]. *)
Definition isMaximumOf (m : number) (vs : list number) : Prop :=
  In m vs /\ forall v, In v vs -> v <= m.

(** [m] is the minimum of the values [vs]. *)
Definition isMinimumOf (m : number) (vs : list number) : Prop :=
  In m vs /\ forall v, In v vs -> m <= v.

(** *** The statistics panel and the tooltip *)

(** [values.filter(v => v !== null && v !== undefined)] *)
Definition validValues (values : list (option number)) : list number :=
  flat_map (fun v => match v with Some x => [x] | None => [] end) values.

(** The result of [getMetricStats]: [{ avg, min, max, count }]. *)
Record MetricStats := {
  avg : number;
  min : number;
  max : number;
  count : nat
}.

(** [validValues.reduce((sum, val) => sum + val, 0)] *)
Definition total (vs : list number) : number := fold_left Qplus vs 0.

(** [getMetricStats]: all zero without a valid value; otherwise the mean
    rounded to one decimal, the minimum, the maximum and the count.  The
    minimum, the maximum and the count are the code's values exactly;
    [avg] is the value of the code's expression in exact arithmetic, from
    which the binary64 sum, division and rounding of the code can differ,
    so nothing below is stated about [avg] beyond the empty case. *)
Definition getMetricStats (values : list (option number)) : MetricStats :=
  match validValues values with
  | [] => {| avg := 0; min := 0; max := 0; count := 0 |}
  | v :: vs =>
    let valid := v :: vs in
    {| avg :=
         inject_Z (Math_round
                     ((total valid / inject_Z (Z.of_nat (List.length valid))) * 10))
         / 10;
       min := Math_min_spread v vs;
       max := Math_max_spread v vs;
       count := List.length valid |}
  end.

Definition primaryStats (chartData : list DualMetricChartData) : MetricStats :=
  getMetricStats (map primaryValue chartData).

(** The statistics of a BOOLEAN comparison metric:
    [{ trueCount, falseCount, totalCount }]. *)
Record BooleanStats := {
  trueCount : nat;
  falseCount : nat;
  totalCount : nat
}.

(** [d.comparisonValue === n], false on a missing value. *)
Definition comparisonIs (n : number) (d : DualMetricChartData) : bool :=
  match comparisonValue d with
  | Some v => strict_eq v n
  | None => false
  end.

Definition comparisonPresent (d : DualMetricChartData) : bool :=
  match comparisonValue d with
  | Some _ => true
  | None => false
  end.

Definition booleanStats (chartData : list DualMetricChartData) : BooleanStats :=
  {| trueCount := List.length (filter (comparisonIs 1) chartData);
     falseCount := List.length (filter (comparisonIs 0) chartData);
     totalCount := List.length (filter comparisonPresent chartData) |}.

(** The tooltip text of a BOOLEAN comparison value:
    [data.comparisonValue === 1 ? 'Yes' : 'No']. *)
Definition tooltipBoolean (v : number) : string :=
  if strict_eq v 1 then "Yes"%string else "No"%string.

End DataPage.

(* ================================================================== *)
(** ** Community server actions: casting a vote *)

Module CommunityActions.

Inductive VoteType := upvote | downvote.

Definition VoteType_eqb (a b : VoteType) : bool :=
  match a, b with
  | upvote, upvote | downvote, downvote => true
  | _, _ => false
  end.

(** A row of the [finding_votes] table. *)
Record VoteRow := {
  user_id : string;
  finding_id : string;
  vote_type : VoteType
}.

Definition Table := list VoteRow.

(** [.eq('user_id', userId).eq('finding_id', findingId)] *)
Definition matches (userId findingId : string) (r : VoteRow) : bool :=
  String.eqb (user_id r) userId && String.eqb (finding_id r) findingId.

(** Errors reported by the database layer.  [PGRST116] is the code of
    [.single()] when the result does not hold exactly one row. *)
Inductive ErrorCode := PGRST116 | OtherCode.

Record PostgrestError := { code : ErrorCode; message : string }.

(** What the outside world does at one awaited call: it answers, it
    answers with an error object, or the call throws. *)
Inductive Fault := Healthy | Rejects (msg : string) | Throws.

Record Backend := {
  sessionUser : option string;   (* id of the authenticated user, if any *)
  auth_fault : Fault;
  select_fault : Fault;
  write_fault : Fault;
  invoke_fault : Fault
}.

(** *** A state and exception monad for the awaited calls *)

Inductive Outcome (A : Type) := Returned (a : A) | Thrown.
Arguments Returned {A} a.
Arguments Thrown {A}.

Definition Action (A : Type) := Table -> Outcome A * Table.

Definition ret {A} (a : A) : Action A := fun t => (Returned a, t).

Definition bind {A B} (m : Action A) (k : A -> Action B) : Action B :=
  fun t => match m t with
           | (Returned a, t') => k a t'
           | (Thrown, t') => (Thrown, t')
           end.

Definition throw {A} : Action A := fun t => (Thrown, t).

(** [try { body } catch (error) { handler }] *)
Definition try_catch {A} (body handler : Action A) : Action A :=
  fun t => match body t with
           | (Thrown, t') => handler t'
           | r => r
           end.

Notation "x <- m ;; k" := (bind m (fun x => k))
  (at level 61, m at next level, right associativity).
Notation "' pat <- m ;; k" :=
  (bind m (fun x => match x with pat => k end))
  (at level 61, pat pattern, m at next level, right associativity).
Notation "m ;;; k" := (bind m (fun _ => k))
  (at level 61, right associativity).

(** *** The awaited calls *)

(** [supabase.auth.getUser()] : [{ data: { user }, error }] *)
Definition getUser (be : Backend)
  : Action (option string * option PostgrestError) :=
  match auth_fault be with
  | Healthy => ret (sessionUser be, None)
  | Rejects m => ret (None, Some {| code := OtherCode; message := m |})
  | Throws => throw
  end.

(** [.from('finding_votes').select('*').eq(..).eq(..).single()] *)
Definition selectSingle (be : Backend) (userId findingId : string)
  : Action (option VoteRow * option PostgrestError) :=
  match select_fault be with
  | Healthy => fun t =>
      match filter (matches userId findingId) t with
      | [r] => (Returned (Some r, None), t)
      | _ => (Returned (None, Some {| code := PGRST116;
                                       message := "no single row" |}), t)
      end
  | Rejects m => ret (None, Some {| code := OtherCode; message := m |})
  | Throws => throw
  end.

(** [.delete().eq(..).eq(..)] *)
Definition deleteWhere (be : Backend) (userId findingId : string)
  : Action (option PostgrestError) :=
  match write_fault be with
  | Healthy => fun t =>
      (Returned None, filter (fun r => negb (matches userId findingId r)) t)
  | Rejects m => ret (Some {| code := OtherCode; message := m |})
  | Throws => throw
  end.

(** [.update({ vote_type: voteType }).eq(..).eq(..)] *)
Definition updateWhere (be : Backend) (userId findingId : string)
           (voteType : VoteType) : Action (option PostgrestError) :=
  match write_fault be with
  | Healthy => fun t =>
      (Returned None,
       map (fun r => if matches userId findingId r
                     then {| user_id := user_id r;
                             finding_id := finding_id r;
                             vote_type := voteType |}
                     else r) t)
  | Rejects m => ret (Some {| code := OtherCode; message := m |})
  | Throws => throw
  end.

(** [.insert({ user_id, finding_id, vote_type })] *)
Definition insertRow (be : Backend) (r : VoteRow)
  : Action (option PostgrestError) :=
  match write_fault be with
  | Healthy => fun t => (Returned None, t ++ [r])
  | Rejects m => ret (Some {| code := OtherCode; message := m |})
  | Throws => throw
  end.

(** [supabase.functions.invoke('vote-processor', ...)] : [{ data, error }];
    the votes table is not touched by it. *)
Definition invokeVoteProcessor (be : Backend) (findingId : string)
  : Action (option PostgrestError) :=
  match invoke_fault be with
  | Healthy => ret None
  | Rejects m => ret (Some {| code := OtherCode; message := m |})
  | Throws => throw
  end.

Definition revalidatePath (path : string) : Action unit := ret tt.

(** *** [castVoteAction] *)

Inductive ActionResult := success | error (msg : string).

Definition isEmpty (s : string) : bool := String.eqb s "".

Definition castVoteAction (be : Backend)
           (userId findingId : string) (voteType : VoteType)
  : Action ActionResult :=
  if isEmpty userId || isEmpty findingId then
    ret (error "User and Finding ID are required.")
  else
    try_catch
      ('(user, userError) <- getUser be ;;
       match userError, user with
       | Some _, _ | None, None => ret (error "You must be logged in to vote.")
       | None, Some uid =>
         if negb (String.eqb uid userId)
         then ret (error "You must be logged in to vote.")
         else
           '(existingVote, fetchError) <- selectSingle be userId findingId ;;
           match fetchError with
           | Some {| code := OtherCode; message := m |} =>
               ret (error ("Failed to check existing vote: " ++ m))
           | _ =>
             written <-
               match existingVote with
               | Some existing =>
                 if VoteType_eqb (vote_type existing) voteType then
                   deleteError <- deleteWhere be userId findingId ;;
                   match deleteError with
                   | Some e => ret (Some ("Failed to remove vote: " ++ message e))
                   | None => ret None
                   end
                 else
                   updateError <- updateWhere be userId findingId voteType ;;
                   match updateError with
                   | Some e => ret (Some ("Failed to update vote: " ++ message e))
                   | None => ret None
                   end
               | None =>
                 insertError <- insertRow be {| user_id := userId;
                                                finding_id := findingId;
                                                vote_type := voteType |} ;;
                 match insertError with
                 | Some e => ret (Some ("Failed to create vote: " ++ message e))
                 | None => ret None
                 end
               end ;;
             match written with
             | Some msg => ret (error msg)
             | None =>
               try_catch
                 (_ <- invokeVoteProcessor be findingId ;; ret tt)
                 (ret tt) ;;;
               revalidatePath ("/community/" ++ findingId) ;;;
               revalidatePath "/community" ;;;
               ret success
             end
           end
       end)%string
      (ret (error "An unexpected error occurred while voting.")).

(** *** Notions used to state the properties of the action *)

(** At most one vote row per (user, finding) pair. *)
Definition atMostOnePerPair (t : Table) : Prop :=
  forall u f, (List.length (filter (matches u f) t) <= 1)%nat.

(** The backend answers every call up to the write, for the session of
    user [u]. *)
Definition writesFor (be : Backend) (u : string) : Prop :=
  sessionUser be = Some u /\ auth_fault be = Healthy /\
  select_fault be = Healthy /\ write_fault be = Healthy.

(** The rows left by [.delete()], [.update()] and [.insert()]. *)
Definition withoutVote (u f : string) (t : Table) : Table :=
  filter (fun r => negb (matches u f r)) t.

Definition retyped (u f : string) (v : VoteType) (r : VoteRow) : VoteRow :=
  if matches u f r
  then {| user_id := user_id r; finding_id := finding_id r; vote_type := v |}
  else r.

Definition newVote (u f : string) (v : VoteType) : VoteRow :=
  {| user_id := u; finding_id := f; vote_type := v |}.

(** The backend [be] with the vote processor behaving as [processor]. *)
Definition withProcessor (be : Backend) (processor : Fault) : Backend :=
  {| sessionUser := sessionUser be;
     auth_fault := auth_fault be;
     select_fault := select_fault be;
     write_fault := write_fault be;
     invoke_fault := processor |}.

(** The vote of a user on a finding, as [.single()] finds it. *)
Definition currentVote (u f : string) (t : Table) : option VoteType :=
  match filter (matches u f) t with
  | [r] => Some (vote_type r)
  | _ => None
  end.

Definition opposite (v : VoteType) : VoteType :=
  match v with
  | upvote => downvote
  | downvote => upvote
  end.

End CommunityActions.

(* ================================================================== *)
(** ** Experiments ([@/lib/experiments]) *)

Module Experiments.
Import Js.

Inductive Status := ACTIVE | COMPLETED.

Definition Status_eqb (a b : Status) : bool :=
  match a, b with
  | ACTIVE, ACTIVE | COMPLETED, COMPLETED => true
  | _, _ => false
  end.

(** Dates are ISO [YYYY-MM-DD] strings. *)
Record Experiment := {
  id : string;
  title : string;
  hypothesis : string;
  start_date : string;
  end_date : string;
  status : Status;
  independent_variable : option TrackableItem;
  dependent_variable : option TrackableItem
}.

Record ExperimentResults := {
  experiment : Experiment;
  positiveConditionAverage : option number;
  negativeConditionAverage : option number;
  positiveConditionCount : nat;
  negativeConditionCount : nat;
  totalDays : nat;
  daysWithData : nat
}.

(** The values of the two variables on one calendar day of the
    experiment's range, after daily aggregation. *)
Record Day := {
  independentValue : option number;
  dependentValue : option number
}.

Inductive Condition := Positive | Negative.

Definition Condition_eqb (a b : Condition) : bool :=
  match a, b with
  | Positive, Positive | Negative, Negative => true
  | _, _ => false
  end.

(** The type by which the days of an experiment are split: that of its
    independent variable (none when the variable is not attached). *)
Definition splitType (e : Experiment) : MetricType :=
  match independent_variable e with
  | Some item => item_type item
  | None => TEXT
  end.

Section Analysis.

(** The splitting rule for a [NUMERIC] independent variable, which the
    specification leaves open. *)
Variable numericSplit : number -> option Condition.

(** Modelled from the spec: the condition splitter of
    [analyzeExperimentResults] ([@/lib/experiments] is not among the
    sources).  BOOLEAN: true is positive, false negative (booleans are
    coerced to 1/0); SCALE_1_10: 6 and above is positive, 5 and below
    negative; TEXT takes no part. *)
Definition classify (type : MetricType) (v : number) : option Condition :=
  match type with
  | BOOLEAN => if strict_eq v 1 then Some Positive
               else if strict_eq v 0 then Some Negative
               else None
  | SCALE_1_10 => if ge v 6 then Some Positive
                  else if ge 5 v then Some Negative
                  else None
  | NUMERIC => numericSplit v
  | TEXT => None
  end.

(** Modelled from the spec: the qualifying days of a condition group are
    the days whose independent value falls in the group and that have a
    dependent value; days lacking the independent value are in neither
    group.  The result lists their dependent values. *)
Definition qualifyingValues (type : MetricType) (c : Condition)
           (days : list Day) : list number :=
  flat_map
    (fun d =>
       match independentValue d, dependentValue d with
       | Some iv, Some dv =>
         match classify type iv with
         | Some c' => if Condition_eqb c' c then [dv] else []
         | None => []
         end
       | _, _ => []
       end) days.

(** The sum of the values, from 0. *)
Definition sum (vs : list number) : number := fold_left Qplus vs 0.

(** Modelled from the spec: group statistics, the count of qualifying
    days and the arithmetic mean of their values; with no qualifying day
    the mean is unavailable ([null]), not zero. *)
Definition groupStatistics (vs : list number) : nat * option number :=
  match vs with
  | [] => (0%nat, None)
  | _ :: _ => (List.length vs,
               Some (sum vs / inject_Z (Z.of_nat (List.length vs))))
  end.

(** A day with paired data: both variables have a value. *)
Definition bothPresent (d : Day) : bool :=
  match independentValue d, dependentValue d with
  | Some _, Some _ => true
  | _, _ => false
  end.

(** Modelled from the spec: [analyzeExperimentResults] of
    [@/lib/experiments], which is not among the sources, from the daily
    values of the experiment's range: the statistics of both condition
    groups, the number of days and the number of days with paired data.
    The mean is kept exact; one decimal place is a matter of display. *)
Definition analyzeExperimentResults (e : Experiment) (days : list Day)
  : ExperimentResults :=
  let pos := groupStatistics (qualifyingValues (splitType e) Positive days) in
  let neg := groupStatistics (qualifyingValues (splitType e) Negative days) in
  {| experiment := e;
     positiveConditionAverage := snd pos;
     negativeConditionAverage := snd neg;
     positiveConditionCount := fst pos;
     negativeConditionCount := fst neg;
     totalDays := List.length days;
     daysWithData := List.length (filter bothPresent days) |}.

End Analysis.



End Experiments.

(* ================================================================== *)
(** ** The experiment results dialog *)

Module ExperimentResultsDialog.
Import Js Experiments.

(** [positiveConditionAverage !== null && negativeConditionAverage !== null
     ? positiveConditionAverage - negativeConditionAverage : null] *)
Definition difference (results : ExperimentResults) : option number :=
  match positiveConditionAverage results, negativeConditionAverage results with
  | Some p, Some n => Some (p - n)
  | _, _ => None
  end.

Definition getImpactStrength (diff : option number) : string :=
  match diff with
  | None => "Insufficient Data"
  | Some d =>
    let absDiff := Math_abs d in
    if ge absDiff 2 then "Strong"
    else if ge absDiff 1 then "Moderate"
    else if ge absDiff 0.5 then "Weak"
    else "Minimal"
  end.

Definition getImpactDirection (diff : option number) : string :=
  match diff with
  | None => ""
  | Some d => if gt d 0 then "Positive"
              else if lt d 0 then "Negative"
              else "No"
  end.

(** [average !== null ? average.toFixed(1) : 'N/A'] *)
Definition averageText (average : option number) : string :=
  match average with
  | Some a => toFixed1 a
  | None => "N/A"
  end.





(** [getConditionLabel] *)
Definition getConditionLabel (experiment : Experiment) (isPositive : bool)
  : string :=
  match independent_variable experiment with
  | None => if isPositive then "High" else "Low"
  | Some item =>
    if MetricType_eqb (item_type item) BOOLEAN then
      if isPositive then "Yes" else "No"
    else if MetricType_eqb (item_type item) SCALE_1_10 then
      if isPositive then "High (6-10)" else "Low (1-5)"
    else
      if isPositive then "High" else "Low"
  end%string.

(** [totalDays > 0 ? (daysWithData / totalDays) * 100 : 0] *)
Definition dataCompleteness (results : ExperimentResults) : number :=
  if (0 <? totalDays results)%nat
  then (inject_Z (Z.of_nat (daysWithData results))
        / inject_Z (Z.of_nat (totalDays results))) * 100
  else 0.

(** The sentence of the hypothesis check, rendered under
    [difference !== null]. *)
Definition hypothesisVerdict (results : ExperimentResults) : option string :=
  match difference results with
  | Some d =>
    Some (if gt d 0
          then "Your hypothesis appears to be supported by the data."
          else if lt d 0
          then "Your hypothesis appears to be contradicted by the data."
          else "The data shows no clear relationship between the variables."
         )%string
  | None => None
  end.

(** The same results with the two condition groups exchanged. *)
Definition swapGroups (r : ExperimentResults) : ExperimentResults :=
  {| experiment := experiment r;
     positiveConditionAverage := negativeConditionAverage r;
     negativeConditionAverage := positiveConditionAverage r;
     positiveConditionCount := negativeConditionCount r;
     negativeConditionCount := positiveConditionCount r;
     totalDays := totalDays r;
     daysWithData := daysWithData r |}.

(** The direction named for the opposite difference. *)
Definition oppositeDirection (direction : string) : string :=
  if String.eqb direction "Positive" then "Negative"
  else if String.eqb direction "Negative" then "Positive"
  else direction.

End ExperimentResultsDialog.

(* ================================================================== *)
(** ** The lab page: experiment status transitions *)

Module LabPage.
Import Experiments.

(** A call [updateStatusMutation.mutate({ id, status })]. *)
Record Mutation := { target : string; newStatus : Status }.

(** The predicate of [experiments.filter] in the [activeExperiments] memo,
    with the mutation it fires: an active experiment whose end date is
    before today is completed and left out. *)
Definition activeStep (today : string) (exp : Experiment)
  : bool * list Mutation :=
  if Status_eqb (status exp) ACTIVE && String.ltb (end_date exp) today
  then (false, [{| target := id exp; newStatus := COMPLETED |}])
  else (Status_eqb (status exp) ACTIVE, []).

(** The [activeExperiments] memo: the filtered list and the mutations
    fired while filtering, in order. *)
Fixpoint activeExperimentsMemo (today : string) (experiments : list Experiment)
  : list Experiment * list Mutation :=
  match experiments with
  | [] => ([], [])
  | exp :: rest =>
    let (keep, fired) := activeStep today exp in
    let (kept, firedRest) := activeExperimentsMemo today rest in
    ((if keep then exp :: kept else kept), fired ++ firedRest)
  end.

Definition activeExperiments today experiments :=
  fst (activeExperimentsMemo today experiments).

Definition autoMutations today experiments :=
  snd (activeExperimentsMemo today experiments).

Definition completedExperiments (experiments : list Experiment) :=
  filter (fun exp => Status_eqb (status exp) COMPLETED) experiments.

Inductive Tab := active | completed.

Definition experimentsToDisplay (activeTab : Tab) (today : string)
           (experiments : list Experiment) : list Experiment :=
  match activeTab with
  | active => activeExperiments today experiments
  | completed => completedExperiments experiments
  end.

Definition handleCompleteExperiment (id : string) : Mutation :=
  {| target := id; newStatus := COMPLETED |}.

Definition handleReactivateExperiment (id : string) : Mutation :=
  {| target := id; newStatus := ACTIVE |}.

(** The status-changing buttons of an experiment's card, each with the
    mutation its click fires: "Complete" is rendered under
    [status === 'ACTIVE'], "Reactivate" under [status === 'COMPLETED']. *)
Inductive Button := Complete | Reactivate.

Definition cardButtons (experiment : Experiment) : list (Button * Mutation) :=
  (if Status_eqb (status experiment) ACTIVE
   then [(Complete, handleCompleteExperiment (id experiment))] else []) ++
  (if Status_eqb (status experiment) COMPLETED
   then [(Reactivate, handleReactivateExperiment (id experiment))] else []).

(** How a status mutation comes about on the page. *)
Inductive Trigger :=
| Auto                                   (* fired by the memo *)
| Click (card : Experiment) (b : Button) (* a button of a displayed card *).

(** The mutations the page fires in a given state: those of the memo, and
    for each displayed card those of its buttons. *)
Definition fires (activeTab : Tab) (today : string)
           (experiments : list Experiment) (tr : Trigger) (m : Mutation) : Prop :=
  match tr with
  | Auto => In m (autoMutations today experiments)
  | Click card b =>
      In card (experimentsToDisplay activeTab today experiments) /\
      In (b, m) (cardButtons card)
  end.

(** What a status mutation must look like, by the way it is triggered. *)
Definition allowedTransition (today : string) (exp : Experiment)
           (tr : Trigger) (m : Mutation) : Prop :=
  target m = id exp /\
  match tr with
  | Auto =>
      status exp = ACTIVE /\ String.ltb (end_date exp) today = true /\
      newStatus m = COMPLETED
  | Click card Complete =>
      card = exp /\ status exp = ACTIVE /\ newStatus m = COMPLETED
  | Click card Reactivate =>
      card = exp /\ status exp = COMPLETED /\ newStatus m = ACTIVE
  end.

(** An active experiment whose end date is before today. *)
Definition overdue (today : string) (exp : Experiment) : bool :=
  Status_eqb (status exp) ACTIVE && String.ltb (end_date exp) today.

(** An active experiment that is not overdue. *)
Definition running (today : string) (exp : Experiment) : bool :=
  Status_eqb (status exp) ACTIVE && negb (String.ltb (end_date exp) today).

(** *** Sharing, duration and progress *)

(** [getShareContext]: the id of the first completed experiment on display. *)
Definition getShareContext (activeTab : Tab) (today : string)
           (experiments : list Experiment) : option string :=
  match find (fun exp => Status_eqb (status exp) COMPLETED)
             (experimentsToDisplay activeTab today experiments) with
  | Some completedExperiment => Some (id completedExperiment)
  | None => None
  end.

Module Progress.
Inductive Status := upcoming | active | completed.
End Progress.

(** The result of [getExperimentProgress]. *)
Record ExperimentProgress := {
  percentage : Js.number;
  daysElapsed : Z;
  progressTotalDays : Z;
  progressStatus : Progress.Status
}.

Section Dates.

(** [new Date(dateStr).getTime()], and the offset of local time. *)
Variable parseDate : string -> Z.
Variable offset : Z.

(** The number of days of [getExperimentDuration]:
    [Math.ceil((end - start) / msPerDay) + 1]. *)
Definition durationDays (startDate endDate : string) : Z :=
  (Js.Math_ceil (Js.toDays (parseDate endDate - parseDate startDate)) + 1)%Z.

(** [getExperimentDuration] *)
Definition getExperimentDuration (startDate endDate : string) : string :=
  let days := durationDays startDate endDate in
  (Js.toString days ++ " day" ++ (if (days =? 1)%Z then "" else "s"))%string.

(** [getExperimentProgress], at the instant [now]. *)
Definition getExperimentProgress (now : Z) (startDate endDate : string)
  : ExperimentProgress :=
  let today := Js.setHours_start offset now in
  let start := Js.setHours_start offset (parseDate startDate) in
  let finish := Js.setHours_end offset (parseDate endDate) in
  let totalDuration := (finish - start)%Z in
  let elapsed := (today - start)%Z in
  if (elapsed <? 0)%Z then
    {| percentage := 0;
       daysElapsed := 0;
       progressTotalDays := (Js.Math_ceil (Js.toDays totalDuration) + 1)%Z;
       progressStatus := Progress.upcoming |}
  else if (finish <? today)%Z then
    let totalDays := (Js.Math_ceil (Js.toDays totalDuration) + 1)%Z in
    {| percentage := 100;
       daysElapsed := totalDays;
       progressTotalDays := totalDays;
       progressStatus := Progress.completed |}
  else
    {| percentage :=
         Js.Math_min 100
           (Js.Math_max 0 ((inject_Z elapsed / inject_Z totalDuration) * 100));
       daysElapsed := Z.max 1 (Js.Math_ceil (Js.toDays elapsed));
       progressTotalDays := (Js.Math_ceil (Js.toDays totalDuration) + 1)%Z;
       progressStatus := Progress.active |}.

End Dates.

End LabPage.

(* ================================================================== *)
(** ** Community server actions: findings and reports *)

Module FindingActions.
Import CommunityActions.

(** The state and exception monad of [CommunityActions], over any table. *)
Definition Act (S A : Type) := S -> Outcome A * S.

Definition retA {S A} (a : A) : Act S A := fun t => (Returned a, t).

Definition bindA {S A B} (m : Act S A) (k : A -> Act S B) : Act S B :=
  fun t => match m t with
           | (Returned a, t') => k a t'
           | (Thrown, t') => (Thrown, t')
           end.

Definition throwA {S A} : Act S A := fun t => (Thrown, t).

Definition try_catchA {S A} (body handler : Act S A) : Act S A :=
  fun t => match body t with
           | (Thrown, t') => handler t'
           | r => r
           end.

Notation "x <-- m ;; k" := (bindA m (fun x => k))
  (at level 61, m at next level, right associativity).
Notation "' pat <-- m ;; k" :=
  (bindA m (fun x => match x with pat => k end))
  (at level 61, pat pattern, m at next level, right associativity).

(** What the outside world does for one run of an action. *)
Record FindingBackend := {
  f_sessionUser : option string;
  f_auth_fault : Fault;
  f_insert_fault : Fault;
  f_newId : string;            (* the id the database gives the new row *)
  f_redirect_fault : Fault
}.

(** [supabase.auth.getUser()] *)
Definition getUserA {S} (be : FindingBackend)
  : Act S (option string * option PostgrestError) :=
  match f_auth_fault be with
  | Healthy => retA (f_sessionUser be, None)
  | Rejects m => retA (None, Some {| code := OtherCode; message := m |})
  | Throws => throwA
  end.

(** [.insert(row).select(...).single()] : the id of the new row, or an
    error. *)
Definition insertA {Row} (be : FindingBackend) (row : Row)
  : Act (list Row) (option string * option PostgrestError) :=
  match f_insert_fault be with
  | Healthy => fun t => (Returned (Some (f_newId be), None), t ++ [row])
  | Rejects m => retA (None, Some {| code := OtherCode; message := m |})
  | Throws => throwA
  end.

(** [redirect(path)] of the framework, an outside call. *)
Definition redirectA {S} (be : FindingBackend) (path : string) : Act S unit :=
  match f_redirect_fault be with
  | Healthy | Rejects _ => retA tt
  | Throws => throwA
  end.

Section Findings.

(** The parsed chart configuration ([any]), [JSON.parse] ([None] when it
    throws) and [String.prototype.trim]. *)
Variable Json : Type.
Variable JSON_parse : string -> option Json.
Variable trim : string -> string.

(** [revalidatePath(path)] of the framework: no effect on the tables. *)
Definition revalidatePathA {S} (path : string) : Act S unit := retA tt.

(** The [chart_config] column: parsed from the form, or built from the
    selection of the data page. *)
Inductive ChartConfig :=
| ParsedConfig (j : Json)
| SelectionConfig (primaryMetricId : option string)
                  (comparisonMetricId : option string)
                  (dateRange : option Js.number).

(** The row handed to [.from('community_findings').insert(...)]. *)
Record FindingRow := {
  author_id : string;
  title : string;
  content : string;
  share_data : bool;
  chart_config : option ChartConfig;
  experiment_id : option string
}.

(** The fields read from the [FormData]; [None] is an absent field. *)
Record FormData := {
  fd_title : option string;
  fd_content : option string;
  fd_shareData : option string;
  fd_chartConfig : option string;
  fd_experimentId : option string
}.

(** [!value?.trim()] *)
Definition blank (value : option string) : bool :=
  match value with
  | Some v => String.eqb (trim v) ""
  | None => true
  end.

(** [value || null] on an optional string. *)
Definition orNull (value : option string) : option string :=
  match value with
  | Some v => if String.eqb v "" then None else Some v
  | None => None
  end.

Definition trimmed (value : option string) : string :=
  match value with
  | Some v => trim v
  | None => ""%string
  end.

(** [createFindingAction]: [Some message] is [{ message }], [None] the
    return after the redirect. *)
Definition createFindingAction (be : FindingBackend) (formData : FormData)
  : Act (list FindingRow) (option string) :=
  try_catchA
    ('(user, userError) <-- getUserA be ;;
     match userError, user with
     | Some _, _ | None, None =>
         retA (Some "You must be logged in to create a finding")
     | None, Some uid =>
       if blank (fd_title formData) then retA (Some "Title is required")
       else if blank (fd_content formData) then retA (Some "Content is required")
       else
         let parsed :=
           match orNull (fd_chartConfig formData) with
           | Some chartConfigStr =>
             match JSON_parse chartConfigStr with
             | Some j => Some (Some (ParsedConfig j))
             | None => None
             end
           | None => Some None
           end in
         match parsed with
         | None => retA (Some "Invalid chart configuration")
         | Some chartConfig =>
           let insertData :=
             {| author_id := uid;
                title := trimmed (fd_title formData);
                content := trimmed (fd_content formData);
                share_data := match fd_shareData formData with
                              | Some v => String.eqb v "on"
                              | None => false
                              end;
                chart_config := chartConfig;
                experiment_id := orNull (fd_experimentId formData) |} in
           '(newFinding, insertError) <-- insertA be insertData ;;
           match insertError, newFinding with
           | Some e, _ =>
               retA (Some ("Failed to create finding: " ++ message e))
           | None, None => throwA
           | None, Some newId =>
             _ <-- revalidatePathA "/community" ;;
             _ <-- redirectA be ("/community/" ++ newId) ;;
             retA None
           end
         end
     end)%string
    (retA (Some "An unexpected error occurred while creating the finding"%string)).

(** The argument of [shareFindingAction]. *)
Inductive ShareType := chart | experiment.

Record ShareFindingData := {
  sd_type : ShareType;
  sd_title : string;
  sd_content : string;
  sd_share_data : bool;
  sd_primaryMetricId : option string;
  sd_comparisonMetricId : option string;
  sd_dateRange : option Js.number;
  sd_experimentId : option string
}.

(** [shareFindingAction]: returns the id of the new finding
    ([{ success: true, finding }]) or throws. *)
Definition shareFindingAction (be : FindingBackend) (data : ShareFindingData)
  : Act (list FindingRow) string :=
  try_catchA
    ('(user, userError) <-- getUserA be ;;
     match userError, user with
     | Some _, _ | None, None => throwA
     | None, Some uid =>
       let insertData :=
         match sd_type data with
         | chart =>
           {| author_id := uid;
              title := sd_title data;
              content := sd_content data;
              share_data := sd_share_data data;
              chart_config := Some (SelectionConfig (sd_primaryMetricId data)
                                                    (sd_comparisonMetricId data)
                                                    (sd_dateRange data));
              experiment_id := None |}
         | experiment =>
           {| author_id := uid;
              title := sd_title data;
              content := sd_content data;
              share_data := sd_share_data data;
              chart_config := None;
              experiment_id := orNull (sd_experimentId data) |}
         end in
       '(newFinding, insertError) <-- insertA be insertData ;;
       match insertError, newFinding with
       | Some _, _ | None, None => throwA
       | None, Some newId =>
         _ <-- revalidatePathA "/community"%string ;;
         retA newId
       end
     end)
    throwA.

End Findings.

(** A row of [finding_reports]. *)
Record ReportRow := {
  report_user_id : string;
  report_finding_id : string;
  report_reason : option string
}.

(** [reportFindingAction] *)
Definition reportFindingAction (be : FindingBackend)
           (userId findingId reason : string)
  : Act (list ReportRow) ActionResult :=
  if isEmpty userId || isEmpty findingId then
    retA (error "User and Finding ID are required.")
  else
    try_catchA
      ('(user, userError) <-- getUserA be ;;
       match userError, user with
       | Some _, _ | None, None =>
           retA (error "You must be logged in to report a finding.")
       | None, Some uid =>
         if negb (String.eqb uid userId)
         then retA (error "You must be logged in to report a finding.")
         else
           '(_, insertError) <-- insertA be
              {| report_user_id := userId;
                 report_finding_id := findingId;
                 report_reason := if isEmpty reason then None else Some reason |} ;;
           match insertError with
           | Some e => retA (error ("Failed to report finding: " ++ message e))
           | None => retA success
           end
       end)%string
      (retA (error "An unexpected error occurred while reporting the finding.")).

(** *** Notions used to state the properties of the actions *)

(** A backend on which a signed-in user's session is confirmed. *)
Definition signedIn (be : FindingBackend) (uid : string) : Prop :=
  f_sessionUser be = Some uid /\ f_auth_fault be = Healthy.

(** The row a report stores: an empty reason is stored as null. *)
Definition reportRow (userId findingId reason : string) : ReportRow :=
  {| report_user_id := userId;
     report_finding_id := findingId;
     report_reason := if isEmpty reason then None else Some reason |}.

(** A backend on which the report of [uid] goes through. *)
Definition reportsFor (be : FindingBackend) (uid : string) : Prop :=
  f_sessionUser be = Some uid /\ f_auth_fault be = Healthy /\
  f_insert_fault be = Healthy.

End FindingActions.

(* ================================================================== *)
(** ** The layout of the authentication pages *)

Module AuthLayout.

Inductive View := Spinner | Children | Nothing.

(** The effect: [router.push('/dashboard')] or nothing. *)
Definition redirectsTo (user loading : bool) (pathname : string)
  : option string :=
  if String.eqb pathname "/update-password" then None
  else if negb loading && user then Some "/dashboard"%string
  else None.

(** What the layout renders. *)
Definition render (user loading : bool) (pathname : string) : View :=
  if loading then Spinner
  else if String.eqb pathname "/update-password" then Children
  else if user then Nothing
  else Children.

End AuthLayout.

(* ================================================================== *)
(** ** Sample data *)

Module Samples.
Import Js DataPage CommunityActions Experiments.

Definition mood : TrackableItem :=
  {| item_id := "m1"; item_name := "Mood";
     item_category := OUTPUT; item_type := SCALE_1_10 |}.

Definition steps : TrackableItem :=
  {| item_id := "m2"; item_name := "Steps";
     item_category := OUTPUT; item_type := NUMERIC |}.

Definition exercised : TrackableItem :=
  {| item_id := "m3"; item_name := "Exercised";
     item_category := INPUT; item_type := BOOLEAN |}.

Definition focus : TrackableItem :=
  {| item_id := "m4"; item_name := "Focus";
     item_category := INPUT; item_type := SCALE_1_10 |}.

Definition point (day : string) (p c : option number) : DualMetricChartData :=
  {| date := day; formattedDate := day;
     primaryValue := p; comparisonValue := c;
     normalizedComparisonValue := None |}.

(** Three days: exercised, did not exercise, nothing logged. *)
Definition threeDays : list DualMetricChartData :=
  [ point "2024-03-01" (Some 8) (Some 1);
    point "2024-03-02" (Some 4) (Some 0);
    point "2024-03-03" None None ].

(** A day in range on which nothing was logged. *)
Definition silentDay : list DualMetricChartData :=
  [ point "2024-03-01" None None ].

(** A NUMERIC primary metric over three days, one of them missing. *)
Definition stepsWeek : list DualMetricChartData :=
  [ point "2024-03-01" (Some 4200) (Some 0);
    point "2024-03-02" None (Some 1);
    point "2024-03-03" (Some 9000) (Some 1) ].

Definition aliceUp : VoteRow :=
  {| user_id := "alice"; finding_id := "f1"; vote_type := upvote |}.

Definition bobDown : VoteRow :=
  {| user_id := "bob"; finding_id := "f1"; vote_type := downvote |}.

Definition votes0 : Table := [aliceUp; bobDown].

(** Alice is signed in and every call is answered. *)
Definition aliceBackend (processor : Fault) : Backend :=
  {| sessionUser := Some "alice"%string;
     auth_fault := Healthy;
     select_fault := Healthy;
     write_fault := Healthy;
     invoke_fault := processor |}.

Definition walkExperiment : Experiment :=
  {| id := "e1"; title := "Exercise and mood";
     hypothesis := "Exercise lifts my mood";
     start_date := "2024-03-01"; end_date := "2024-03-10";
     status := COMPLETED;
     independent_variable := Some exercised;
     dependent_variable := Some mood |}.

Definition day (iv dv : option number) : Day :=
  {| independentValue := iv; dependentValue := dv |}.

(** Three days without exercise, one of them without a mood entry. *)
Definition restDays : list Day :=
  [ day (Some 0) (Some 3); day (Some 0) None; day (Some 0) (Some 4) ].

(** Five days with and five without exercise. *)
Definition tenDays : list Day :=
  map (fun dv => day (Some 1) (Some dv)) [8; 7; 9; 6; 8] ++
  map (fun dv => day (Some 0) (Some dv)) [3; 4; 2; 5; 3].

Definition noSplit : number -> option Condition := fun _ => None.

(** An active experiment that ended on 10 March, one still running, and a
    completed one. *)
Definition endedExperiment : Experiment :=
  {| id := "e1"; title := "Exercise and mood";
     hypothesis := "Exercise lifts my mood";
     start_date := "2024-03-01"; end_date := "2024-03-10";
     status := ACTIVE;
     independent_variable := Some exercised;
     dependent_variable := Some mood |}.

Definition runningExperiment : Experiment :=
  {| id := "e2"; title := "Focus and steps";
     hypothesis := "Walking more helps me focus";
     start_date := "2024-03-05"; end_date := "2024-03-15";
     status := ACTIVE;
     independent_variable := Some focus;
     dependent_variable := Some steps |}.

Definition labExperiments : list Experiment :=
  [endedExperiment; runningExperiment; walkExperiment].

(** Carol is signed in and every call is answered. *)
Definition carolBackend : FindingActions.FindingBackend :=
  {| FindingActions.f_sessionUser := Some "carol"%string;
     FindingActions.f_auth_fault := Healthy;
     FindingActions.f_insert_fault := Healthy;
     FindingActions.f_newId := "n1"%string;
     FindingActions.f_redirect_fault := Throws |}.

(** The dates of the sample experiments as milliseconds since the epoch
    (midnight UTC), noon of 5 March 2024, and a zone one hour ahead. *)
Definition sampleParseDate (dateStr : string) : Z :=
  if String.eqb dateStr "2024-03-01" then 1709251200000
  else if String.eqb dateStr "2024-03-10" then 1710028800000
  else 0.

Definition noonOfMarch5 : Z := 1709640000000.

Definition oneHourAhead : Z := 3600000.

End Samples.
Import Samples.

(* ================================================================== *)
(** * Properties *)

(** Split on every condition of the goal. *)
Ltac destruct_ifs :=
  repeat match goal with
         | |- context [if ?b then _ else _] => destruct b
         end.

Lemma MetricType_eqb_eq (a b : MetricType) : MetricType_eqb a b = true <-> a = b.
Proof. destruct a, b; simpl; split; intro H; congruence. Qed.

Lemma MetricType_eqb_refl (a : MetricType) : MetricType_eqb a a = true.
Proof. now destruct a. Qed.

Section AxisSynchronizer.
Import Js DataPage.

(** With a primary metric and at least one record, a configuration is
    produced. *)
Lemma axisSync_nonempty pm cm rows :
  rows <> [] -> exists cfg, axisConfig (Some pm) cm rows = Some cfg.
Proof.
  intro Hne. destruct rows as [|d rows]; [congruence|].
  unfold axisConfig, axisSync.
  destruct cm as [cm|]; [|eexists; reflexivity].
  destruct_ifs; eexists; reflexivity.
Qed.

(** Scenario C is taken exactly for a SCALE_1_10 primary and a BOOLEAN
    comparison metric. *)
Lemma axisSync_scenarioC pm cm d rows :
  item_type pm = SCALE_1_10 -> item_type cm = BOOLEAN ->
  axisSync (Some pm) (Some cm) (d :: rows) =
  (map normalizeBoolean (d :: rows),
   Some {| leftDomain := (1, 10);
           rightDomain := (1, 10);
           rightTickFormatter := Some scenarioC_formatter;
           rightTicks := Some [2.5; 7.5];
           normalizeComparison := true |}).
Proof.
  intros Hp Hc. unfold axisSync. rewrite Hp, Hc. reflexivity.
Qed.

(** C1, as stated, fails on the empty dataset: the memo returns no
    configuration at all (the [!rawChartData.length] guard), hence no
    right ticks. *)
Lemma C1_counterexample_empty_dataset :
  item_type mood = SCALE_1_10 /\ item_type exercised = BOOLEAN /\
  ~ exists cfg,
      axisConfig (Some mood) (Some exercised) [] = Some cfg /\
      rightTicks cfg = Some [2.5; 7.5].
Proof.
  repeat split. intros [cfg [H _]]. discriminate H.
Qed.

(** C1 (amended): for every non-empty chart dataset with a SCALE_1_10
    primary metric and a BOOLEAN comparison metric, the axis synchronizer
    produces right ticks [2.5, 7.5], right domain [1,10] and
    [normalizeComparison = true], and the charted data has, point for
    point, the comparison value 1 normalised to 7.5, the value 0 to 2.5
    and a missing value to null. *)
Theorem C1_boolean_on_scale pm cm rows :
  item_type pm = SCALE_1_10 -> item_type cm = BOOLEAN -> rows <> [] ->
  (exists cfg,
      axisConfig (Some pm) (Some cm) rows = Some cfg /\
      rightTicks cfg = Some [2.5; 7.5] /\
      rightDomain cfg = (1, 10) /\
      normalizeComparison cfg = true) /\
  List.length (chartData (Some pm) (Some cm) rows) = List.length rows /\
  forall i d, nth_error rows i = Some d ->
    exists d', nth_error (chartData (Some pm) (Some cm) rows) i = Some d' /\
      (forall v, comparisonValue d = Some v -> v == 1 ->
                 normalizedComparisonValue d' = Some (Some 7.5)) /\
      (forall v, comparisonValue d = Some v -> v == 0 ->
                 normalizedComparisonValue d' = Some (Some 2.5)) /\
      (comparisonValue d = None ->
                 normalizedComparisonValue d' = Some None).
Proof.
  intros Hp Hc Hne. destruct rows as [|d0 rows]; [congruence|].
  unfold axisConfig, chartData. rewrite (axisSync_scenarioC _ _ _ _ Hp Hc).
  cbn [fst snd]. split; [|split].
  - eexists; repeat split.
  - apply length_map.
  - intros i d Hi. exists (normalizeBoolean d). split.
    + now rewrite nth_error_map, Hi.
    + unfold normalizeBoolean, strict_eq; cbn. repeat split.
      * intros v -> Hv. apply Qeq_bool_iff in Hv. now rewrite Hv.
      * intros v -> Hv.
        assert (Hn : Qeq_bool v 1 = false).
        { apply not_true_is_false. intro H1. apply Qeq_bool_iff in H1.
          rewrite Hv in H1. discriminate H1. }
        apply Qeq_bool_iff in Hv. now rewrite Hn, Hv.
      * now intros ->.
Qed.

Lemma C1_boolean_on_scale_witness :
  (exists cfg,
      axisConfig (Some mood) (Some exercised) threeDays = Some cfg /\
      rightTicks cfg = Some [2.5; 7.5] /\
      rightDomain cfg = (1, 10) /\
      normalizeComparison cfg = true) /\
  map normalizedComparisonValue
      (chartData (Some mood) (Some exercised) threeDays)
  = [Some (Some 7.5); Some (Some 2.5); Some None].
Proof.
  split.
  - apply (C1_boolean_on_scale mood exercised threeDays);
      [reflexivity | reflexivity | discriminate].
  - reflexivity.
Defined.

End AxisSynchronizer.

Section AxisDomains.
Import Js DataPage.

Lemma Math_max_cases a b : Math_max a b = a \/ Math_max a b = b.
Proof.
  unfold Math_max, Qmax, GenericMinMax.gmax. destruct (a ?= b); auto.
Qed.

Lemma Math_max_spread_In v vs : In (Math_max_spread v vs) (v :: vs).
Proof.
  unfold Math_max_spread. revert v.
  induction vs as [|w vs IH]; intro v; cbn [fold_left].
  - now left.
  - destruct (IH (Math_max v w)) as [H|H].
    + rewrite <- H.
      destruct (Math_max_cases v w) as [E|E]; rewrite E.
      * now left.
      * right; now left.
    + right; now right.
Qed.

Lemma Math_max_spread_ge_init v vs : v <= Math_max_spread v vs.
Proof.
  unfold Math_max_spread. revert v.
  induction vs as [|w vs IH]; intro v; cbn [fold_left].
  - apply Qle_refl.
  - eapply Qle_trans; [|apply IH]. apply Q.le_max_l.
Qed.

Lemma Math_max_spread_upper v vs x :
  In x (v :: vs) -> x <= Math_max_spread v vs.
Proof.
  revert v. induction vs as [|w vs IH]; intros v [H|H].
  - subst. apply Qle_refl.
  - destruct H.
  - subst. apply Math_max_spread_ge_init.
  - change (Math_max_spread v (w :: vs))
      with (Math_max_spread (Math_max v w) vs).
    destruct H as [H|H].
    + subst. eapply Qle_trans; [|apply Math_max_spread_ge_init].
      apply Q.le_max_r.
    + apply IH. now right.
Qed.

(** With at least one value, [maxOrDefault] is the maximum. *)
Lemma maxOrDefault_isMaximum vs :
  vs <> [] -> isMaximumOf (maxOrDefault vs) vs.
Proof.
  destruct vs as [|v vs]; [congruence|]. intros _. split.
  - apply Math_max_spread_In.
  - intros x Hx. now apply Math_max_spread_upper.
Qed.

(** All values of a series are missing exactly when none is collected. *)
Lemma definedValues_nil f rows :
  definedValues f rows = [] <-> Forall (fun d => f d = None) rows.
Proof.
  unfold definedValues. induction rows as [|d rows IH]; cbn.
  - split; auto.
  - destruct (f d) eqn:E; cbn; split; intro H.
    + discriminate.
    + inversion H; congruence.
    + constructor; [assumption | now apply IH].
    + inversion H; now apply IH.
Qed.

(** The left domain in every branch of the decision table. *)
Lemma leftDomain_table pm cm rows cfg :
  axisConfig (Some pm) cm rows = Some cfg ->
  leftDomain cfg =
  if MetricType_eqb (item_type pm) SCALE_1_10 then (1, 10)
  else (0, Math_max (primaryMax rows * 1.1) 1).
Proof.
  unfold axisConfig, axisSync. destruct rows as [|d rows]; [discriminate|].
  destruct cm as [cm|].
  - destruct (item_type pm), (item_type cm); cbn;
      intro H; injection H as <-; reflexivity.
  - intro H; injection H as <-; reflexivity.
Qed.

(** The right domain wherever it is derived from the comparison series. *)
Lemma rightDomain_table pm cm rows cfg :
  axisConfig (Some pm) (Some cm) rows = Some cfg ->
  item_type cm <> SCALE_1_10 ->
  ~ (item_type pm = SCALE_1_10 /\ item_type cm = BOOLEAN) ->
  rightDomain cfg = (0, Math_max (comparisonMax rows * 1.1) 1).
Proof.
  unfold axisConfig, axisSync. destruct rows as [|d rows]; [discriminate|].
  destruct (item_type pm), (item_type cm); cbn;
    intros H H1 H2; try congruence; try (exfalso; now apply H2);
    injection H as <-; reflexivity.
Qed.

(** C3, as stated, fails: one day in range with nothing logged and a
    NUMERIC primary metric give the left domain [0, 11], not [0, 10]. *)
Lemma C3_counterexample_silent_day :
  Forall (fun d => primaryValue d = None) silentDay /\
  exists cfg,
    axisConfig (Some steps) None silentDay = Some cfg /\
    fst (leftDomain cfg) == 0 /\
    snd (leftDomain cfg) == 11 /\
    ~ snd (leftDomain cfg) == 10.
Proof.
  split.
  - repeat constructor.
  - eexists. split; [reflexivity|]. split; [reflexivity|].
    split; [reflexivity | discriminate].
Qed.

(** C3 (amended): for every non-empty chart dataset in which all observed
    values of a series are null/missing, the observed maximum of that
    series falls back to 10, and the axis domain derived from it is
    [0, max(10 * 1.1, 1)], that is [0, 11]: the left domain for a primary
    metric that is not SCALE_1_10, the right domain for a comparison
    metric that is not SCALE_1_10 outside the boolean-on-scale scenario.
    The other domains are not derived from the observed values of their
    series: without a comparison metric the right domain is the constant
    [0, 10]; a SCALE_1_10 primary metric has the left domain [1, 10]; a
    SCALE_1_10 comparison metric has the right domain [1, 10], except
    beside a NUMERIC primary metric, where it has the left axis's
    [0, max(primaryMax * 1.1, 1)]; a BOOLEAN comparison metric beside a
    SCALE_1_10 primary metric has [1, 10]. *)
Theorem C3_all_missing_fallback pm cm rows cfg :
  axisConfig (Some pm) cm rows = Some cfg ->
  (Forall (fun d => primaryValue d = None) rows ->
     primaryMax rows = 10 /\
     (item_type pm <> SCALE_1_10 ->
        leftDomain cfg = (0, Math_max (10 * 1.1) 1) /\
        snd (leftDomain cfg) == 11)) /\
  (Forall (fun d => comparisonValue d = None) rows ->
     comparisonMax rows = 10 /\
     (forall c, cm = Some c -> item_type c <> SCALE_1_10 ->
        ~ (item_type pm = SCALE_1_10 /\ item_type c = BOOLEAN) ->
        rightDomain cfg = (0, Math_max (10 * 1.1) 1) /\
        snd (rightDomain cfg) == 11)) /\
  (cm = None -> rightDomain cfg = (0, 10)) /\
  (item_type pm = SCALE_1_10 -> leftDomain cfg = (1, 10)) /\
  (forall c, cm = Some c -> item_type c = SCALE_1_10 ->
     rightDomain cfg
     = if MetricType_eqb (item_type pm) NUMERIC
       then (0, Math_max (primaryMax rows * 1.1) 1)
       else (1, 10)) /\
  (forall c, cm = Some c ->
     item_type pm = SCALE_1_10 -> item_type c = BOOLEAN ->
     rightDomain cfg = (1, 10)).
Proof.
  intro Hcfg.
  assert (Hfixed :
    (cm = None -> rightDomain cfg = (0, 10)) /\
    (item_type pm = SCALE_1_10 -> leftDomain cfg = (1, 10)) /\
    (forall c, cm = Some c -> item_type c = SCALE_1_10 ->
       rightDomain cfg
       = if MetricType_eqb (item_type pm) NUMERIC
         then (0, Math_max (primaryMax rows * 1.1) 1)
         else (1, 10)) /\
    (forall c, cm = Some c ->
       item_type pm = SCALE_1_10 -> item_type c = BOOLEAN ->
       rightDomain cfg = (1, 10))).
  { revert Hcfg. unfold axisConfig, axisSync.
    destruct rows as [|d rows]; [discriminate|].
    destruct cm as [c|].
    - destruct (item_type pm) eqn:Ep, (item_type c) eqn:Ec; cbn;
        intro H; injection H as <-; cbn;
        (split; [discriminate|]); (split; [intro; try discriminate; reflexivity|]);
        (split; intros c' Hc'; injection Hc' as <-; rewrite Ec;
           intros; try discriminate; reflexivity).
    - intro H; injection H as <-; cbn.
      split; [reflexivity|]. split.
      + intros ->. reflexivity.
      + split; intros c' Hc'; discriminate Hc'. }
  split; [|split; [|exact Hfixed]];
    intro Hall; apply definedValues_nil in Hall.
  - assert (Hmax : primaryMax rows = 10)
      by (unfold primaryMax; now rewrite Hall).
    split; [exact Hmax|]. intro Hty.
    rewrite (leftDomain_table _ _ _ _ Hcfg), Hmax.
    destruct (MetricType_eqb (item_type pm) SCALE_1_10) eqn:E.
    + apply MetricType_eqb_eq in E. contradiction.
    + split; reflexivity.
  - assert (Hmax : comparisonMax rows = 10)
      by (unfold comparisonMax; now rewrite Hall).
    split; [exact Hmax|]. intros c -> Hty Hc.
    rewrite (rightDomain_table _ _ _ _ Hcfg Hty Hc), Hmax.
    split; reflexivity.
Qed.

Lemma C3_all_missing_fallback_witness :
  exists cfg,
    axisConfig (Some steps) None silentDay = Some cfg /\
    primaryMax silentDay = 10 /\
    leftDomain cfg = (0, Math_max (10 * 1.1) 1) /\
    snd (leftDomain cfg) == 11.
Proof.
  eexists. split; [reflexivity|].
  destruct (C3_all_missing_fallback steps None silentDay _ eq_refl) as [H _].
  destruct (H ltac:(repeat constructor)) as [Hmax Hdom].
  split; [exact Hmax|].
  exact (Hdom ltac:(discriminate)).
Defined.

(** C4: for every non-empty chart dataset and primary metric, the left
    axis domain is [1,10] when the primary metric is SCALE_1_10 and
    otherwise [0, max(observedMax * 1.1, 1)], where observedMax is the
    maximum of the non-null primary values (whenever there is one); the
    same in the single-metric case, the named scenarios and the default
    case, that is for every comparison metric or none. *)
Theorem C4_left_domain pm cm rows :
  rows <> [] ->
  exists cfg,
    axisConfig (Some pm) cm rows = Some cfg /\
    (item_type pm = SCALE_1_10 -> leftDomain cfg = (1, 10)) /\
    (item_type pm <> SCALE_1_10 ->
       exists observedMax,
         leftDomain cfg = (0, Math_max (observedMax * 1.1) 1) /\
         observedMax = primaryMax rows /\
         (definedValues primaryValue rows <> [] ->
            isMaximumOf observedMax (definedValues primaryValue rows))).
Proof.
  intro Hne. destruct (axisSync_nonempty pm cm rows Hne) as [cfg Hcfg].
  exists cfg. split; [exact Hcfg|].
  rewrite (leftDomain_table _ _ _ _ Hcfg). split.
  - intros ->. reflexivity.
  - intro Hty.
    destruct (MetricType_eqb (item_type pm) SCALE_1_10) eqn:E.
    + apply MetricType_eqb_eq in E. contradiction.
    + exists (primaryMax rows). repeat split;
        now apply maxOrDefault_isMaximum.
Qed.

Lemma C4_left_domain_witness :
  exists cfg,
    axisConfig (Some steps) (Some exercised) stepsWeek = Some cfg /\
    leftDomain cfg = (0, Math_max (9000 * 1.1) 1) /\
    isMaximumOf 9000 (definedValues primaryValue stepsWeek).
Proof.
  destruct (C4_left_domain steps (Some exercised) stepsWeek
              ltac:(discriminate)) as [cfg [Hcfg [_ Hnum]]].
  destruct (Hnum ltac:(discriminate)) as [m [Hdom [Hm Hmax]]].
  exists cfg. split; [exact Hcfg|].
  assert (E : m = 9000) by (rewrite Hm; reflexivity).
  rewrite E in Hdom, Hmax. split; [exact Hdom|].
  apply Hmax. discriminate.
Defined.

End AxisDomains.

(** A printed integer starts with a digit or a sign. *)
Lemma toString_first (z : Z) :
  exists c s, Js.toString z = String c s /\ c <> "N"%char.
Proof.
  unfold Js.toString, NilZero.string_of_int.
  destruct (Z.to_int z) as [d|d].
  - destruct d; cbn; do 2 eexists; (split; [reflexivity | discriminate]).
  - do 2 eexists; (split; [reflexivity | discriminate]).
Qed.

Section TickLabels.
Import Js DataPage.

Lemma Math_round_integer (z : Z) (x : number) :
  x == inject_Z z -> Math_round x = z.
Proof.
  intro Hx. unfold Math_round.
  assert (Hlo : inject_Z z <= x + 0.5).
  { rewrite Hx. rewrite <- (Qplus_0_r (inject_Z z)) at 1.
    apply Qplus_le_r. discriminate. }
  assert (Hhi : x + 0.5 < inject_Z (z + 1)).
  { rewrite Hx, inject_Z_plus. apply Qplus_lt_r. reflexivity. }
  apply Qfloor_resp_le in Hlo. rewrite Qfloor_Z in Hlo.
  assert (Hup : (Qfloor (x + 0.5) < z + 1)%Z).
  { rewrite Zlt_Qlt. eapply Qle_lt_trans; [apply Qfloor_le | exact Hhi]. }
  lia.
Qed.

(** The [i]-th tick (counting from 0) is formatted as [i + 1]. *)
Lemma scenarioA_tick_label (scaledMax : number) (i : nat) :
  0 < scaledMax -> (i < 10)%nat ->
  scenarioA_formatter scaledMax
    ((inject_Z (Z.of_nat i + 1) / 10) * scaledMax)
  = toString (Z.of_nat i + 1).
Proof.
  intros Hpos Hi. unfold scenarioA_formatter.
  rewrite (Math_round_integer (Z.of_nat i + 1)).
  - replace ((1 <=? Z.of_nat i + 1)%Z && (Z.of_nat i + 1 <=? 10)%Z)
      with true; [reflexivity|].
    symmetry. apply andb_true_iff. split; apply Z.leb_le; lia.
  - field. intro H0. rewrite H0 in Hpos. discriminate Hpos.
Qed.

Lemma scenarioA_labels (scaledMax : number) :
  0 < scaledMax ->
  map (scenarioA_formatter scaledMax) (scenarioA_ticks scaledMax)
  = ["1"; "2"; "3"; "4"; "5"; "6"; "7"; "8"; "9"; "10"]%string.
Proof.
  intro Hpos. unfold scenarioA_ticks. rewrite map_map. cbn [seq map].
  repeat (rewrite (scenarioA_tick_label scaledMax _ Hpos); [|lia]).
  reflexivity.
Qed.

(** C8: in the scenario with a NUMERIC primary and a SCALE_1_10 comparison
    metric, the right tick formatter is a left inverse of the tick
    placement: for every positive [scaledMax] and every i in 1..10, the
    i-th tick [(i/10) * scaledMax] is formatted as the label "i", never as
    the empty string; so the ten ticks of the axis read "1" to "10". *)
Theorem C8_formatter_inverts_ticks (scaledMax : number) :
  0 < scaledMax ->
  (forall i : Z, (1 <= i <= 10)%Z ->
     scenarioA_formatter scaledMax ((inject_Z i / 10) * scaledMax) = toString i /\
     scenarioA_formatter scaledMax ((inject_Z i / 10) * scaledMax) <> ""%string) /\
  map (scenarioA_formatter scaledMax) (scenarioA_ticks scaledMax)
  = ["1"; "2"; "3"; "4"; "5"; "6"; "7"; "8"; "9"; "10"]%string.
Proof.
  intro Hpos. split; [|now apply scenarioA_labels].
  intros i Hi.
  assert (E : scenarioA_formatter scaledMax ((inject_Z i / 10) * scaledMax)
              = toString i).
  { replace i with (Z.of_nat (Z.to_nat (i - 1)) + 1)%Z by lia.
    apply scenarioA_tick_label; [exact Hpos | lia]. }
  split; [exact E|]. rewrite E.
  destruct (toString_first i) as [c [rest [Ec _]]]. rewrite Ec. discriminate.
Qed.

Lemma C8_formatter_inverts_ticks_witness :
  0 < 11 /\
  scenarioA_formatter 11 ((inject_Z 7 / 10) * 11) = "7"%string /\
  map (scenarioA_formatter 11) (scenarioA_ticks 11)
  = ["1"; "2"; "3"; "4"; "5"; "6"; "7"; "8"; "9"; "10"]%string.
Proof.
  assert (Hpos : 0 < 11) by reflexivity.
  destruct (C8_formatter_inverts_ticks 11 Hpos) as [Htick Hall].
  split; [exact Hpos|]. split; [|exact Hall].
  exact (proj1 (Htick 7%Z ltac:(lia))).
Defined.

(** In the configuration of that scenario the formatter and the ticks are
    these, for a [scaledMax] that is at least 1. *)
Lemma scenarioA_config pm cm rows :
  item_type pm = NUMERIC -> item_type cm = SCALE_1_10 -> rows <> [] ->
  exists cfg f ticks,
    axisConfig (Some pm) (Some cm) rows = Some cfg /\
    rightTickFormatter cfg = Some f /\
    rightTicks cfg = Some ticks /\
    map f ticks
    = ["1"; "2"; "3"; "4"; "5"; "6"; "7"; "8"; "9"; "10"]%string.
Proof.
  intros Hp Hc Hne. destruct rows as [|d rows]; [congruence|].
  unfold axisConfig, axisSync. rewrite Hp, Hc. cbn [MetricType_eqb andb snd].
  do 3 eexists. repeat split.
  apply scenarioA_labels.
  eapply Qlt_le_trans; [|apply Q.le_max_r]. reflexivity.
Qed.

End TickLabels.

Section CorrelationScore.
Import Js DataPage.

Variable calculatePearsonCorrelation :
  list number -> list number -> option number.

Local Abbreviation correlationScore := (correlationScore calculatePearsonCorrelation).
Local Abbreviation pageCorrelationScore :=
  (pageCorrelationScore calculatePearsonCorrelation).
Local Abbreviation correlationScore_spec :=
  (correlationScore_spec calculatePearsonCorrelation).

Lemma fold_pushPair rows ps cs :
  fold_left pushPair rows (ps, cs)
  = (ps ++ map fst (innerJoin rows), cs ++ map snd (innerJoin rows)).
Proof.
  revert ps cs. induction rows as [|d rows IH]; intros ps cs; cbn.
  - now rewrite !app_nil_r.
  - unfold pushPair at 2.
    destruct (primaryValue d) as [p|], (comparisonValue d) as [c|];
      cbn [fst snd app map]; rewrite IH; try reflexivity.
    now rewrite <- !app_assoc.
Qed.

(** The two arrays handed to the coefficient are the two columns of the
    inner join. *)
Lemma pairedArrays_innerJoin rows :
  pairedArrays rows = (map fst (innerJoin rows), map snd (innerJoin rows)).
Proof. unfold pairedArrays. now rewrite fold_pushPair. Qed.

(** A pair is in the inner join only if it comes from a record holding
    both values. *)
Lemma innerJoin_In rows p c :
  In (p, c) (innerJoin rows) <->
  exists d, In d rows /\ primaryValue d = Some p /\ comparisonValue d = Some c.
Proof.
  unfold innerJoin. rewrite in_flat_map. split.
  - intros [d [Hd Hin]]. exists d. split; [exact Hd|].
    destruct (primaryValue d), (comparisonValue d); cbn in Hin;
      try contradiction.
    destruct Hin as [E|[]]. now injection E as -> ->.
  - intros [d [Hd [Hp Hc]]]. exists d. split; [exact Hd|].
    rewrite Hp, Hc. now left.
Qed.

(** C2: the correlation score is computed only over the inner join of the
    days on which both the primary and the comparison value are non-null;
    it is null when fewer than 2 such pairs exist, when no comparison
    metric is selected and when the chart data is empty. *)
Theorem C2_correlation_over_inner_join pm cm comparisonMetricId rows :
  correlationScore pm cm comparisonMetricId rows
  = correlationScore_spec pm cm comparisonMetricId rows.
Proof.
  unfold DataPage.correlationScore, DataPage.correlationScore_spec.
  destruct pm as [pm|], cm as [cm|]; try reflexivity.
  destruct (String.eqb comparisonMetricId "none"); cbn [orb]; [reflexivity|].
  destruct rows as [|d rows]; [reflexivity|].
  cbn [List.length Nat.eqb].
  rewrite pairedArrays_innerJoin, length_map.
  destruct (Nat.ltb_spec (List.length (innerJoin (d :: rows))) 2) as [H|H].
  - apply Nat.leb_gt in H. now rewrite H.
  - apply Nat.leb_le in H. now rewrite H.
Qed.

(** Normalising booleans for the chart leaves both values of each record,
    hence the inner join, unchanged. *)
Lemma innerJoin_normalizeBoolean rows :
  innerJoin (map normalizeBoolean rows) = innerJoin rows.
Proof.
  unfold innerJoin. induction rows as [|d rows IH]; cbn; [reflexivity|].
  now rewrite IH.
Qed.

Lemma innerJoin_chartData pm cm rows :
  innerJoin (chartData pm cm rows) = innerJoin rows.
Proof.
  unfold chartData, axisSync.
  destruct pm as [pm|]; [|reflexivity].
  destruct rows as [|d rows]; [reflexivity|].
  destruct cm as [cm|]; [|reflexivity].
  destruct_ifs; cbn [fst]; try reflexivity.
  apply innerJoin_normalizeBoolean.
Qed.

Lemma chartData_length pm cm rows :
  List.length (chartData pm cm rows) = List.length rows.
Proof.
  unfold chartData, axisSync.
  destruct pm as [pm|]; [|reflexivity].
  destruct rows as [|d rows]; [reflexivity|].
  destruct cm as [cm|]; [|reflexivity].
  destruct_ifs; cbn [fst]; try reflexivity.
  apply length_map.
Qed.

Lemma correlationScore_ext pm cm comparisonMetricId rows rows' :
  List.length rows = List.length rows' ->
  innerJoin rows = innerJoin rows' ->
  correlationScore pm cm comparisonMetricId rows
  = correlationScore pm cm comparisonMetricId rows'.
Proof.
  intros Hlen Hjoin. unfold DataPage.correlationScore.
  now rewrite !pairedArrays_innerJoin, Hlen, Hjoin.
Qed.

(** C9: the correlation score is computed from the original comparison
    values.  The charted data differs from the raw data at most by the
    added [normalizedComparisonValue] (1 to 7.5, 0 to 2.5); the pairs
    handed to the coefficient are those of the raw data, so the score of
    the page equals the score computed on the raw, un-normalised data. *)
Theorem C9_correlation_ignores_normalization
        allItems primaryMetricId comparisonMetricId rawChartData :
  let pm := findItem allItems primaryMetricId in
  let cm := findItem allItems comparisonMetricId in
  pairedArrays (chartData pm cm rawChartData) = pairedArrays rawChartData /\
  map comparisonValue (chartData pm cm rawChartData)
  = map comparisonValue rawChartData /\
  pageCorrelationScore allItems primaryMetricId comparisonMetricId rawChartData
  = correlationScore pm cm comparisonMetricId rawChartData.
Proof.
  intros pm cm. split; [|split].
  - now rewrite !pairedArrays_innerJoin, innerJoin_chartData.
  - unfold chartData, axisSync.
    destruct pm as [p|]; [|reflexivity].
    destruct rawChartData as [|d rows]; [reflexivity|].
    destruct cm as [c|]; [|reflexivity].
    destruct_ifs; cbn [fst]; try reflexivity.
    rewrite map_map. reflexivity.
  - unfold DataPage.pageCorrelationScore. fold pm cm.
    apply correlationScore_ext;
      [apply chartData_length | apply innerJoin_chartData].
Qed.

End CorrelationScore.

(** Expose the awaited calls of the action as functions of the table. *)
Ltac unfold_calls :=
  unfold CommunityActions.try_catch, CommunityActions.bind,
    CommunityActions.getUser, CommunityActions.selectSingle,
    CommunityActions.deleteWhere, CommunityActions.updateWhere,
    CommunityActions.insertRow, CommunityActions.invokeVoteProcessor,
    CommunityActions.revalidatePath, CommunityActions.ret,
    CommunityActions.throw.

Section Votes.
Import CommunityActions.

Lemma VoteType_eqb_eq a b : VoteType_eqb a b = true <-> a = b.
Proof. destruct a, b; cbn; split; congruence. Qed.

Lemma matches_eq u f r :
  matches u f r = true <-> user_id r = u /\ finding_id r = f.
Proof.
  unfold matches. rewrite andb_true_iff, !String.eqb_eq. tauto.
Qed.

Lemma matches_retyped u f v u' f' r :
  matches u' f' (retyped u f v r) = matches u' f' r.
Proof. unfold retyped. now destruct (matches u f r). Qed.

Lemma filter_filter_length {A} (p q : A -> bool) (l : list A) :
  (List.length (filter p (filter q l)) <= List.length (filter p l))%nat.
Proof.
  induction l as [|a l IH]; cbn; [lia|].
  destruct (q a), (p a) eqn:Ep; cbn; rewrite ?Ep; cbn; lia.
Qed.

Lemma filter_map_retyped u f v u' f' (t : Table) :
  filter (matches u' f') (map (retyped u f v) t)
  = map (retyped u f v) (filter (matches u' f') t).
Proof.
  induction t as [|r t IH]; cbn; [reflexivity|].
  rewrite matches_retyped. destruct (matches u' f' r); cbn; now rewrite IH.
Qed.

Lemma atMostOne_withoutVote u f t :
  atMostOnePerPair t -> atMostOnePerPair (withoutVote u f t).
Proof.
  intros H u' f'. unfold withoutVote.
  eapply Nat.le_trans; [apply filter_filter_length | apply H].
Qed.

Lemma atMostOne_retyped u f v t :
  atMostOnePerPair t -> atMostOnePerPair (map (retyped u f v) t).
Proof.
  intros H u' f'. rewrite filter_map_retyped, length_map. apply H.
Qed.

Lemma atMostOne_insert u f v t :
  atMostOnePerPair t -> filter (matches u f) t = [] ->
  atMostOnePerPair (t ++ [newVote u f v]).
Proof.
  intros H Hnone u' f'. rewrite filter_app, length_app. cbn [filter].
  destruct (matches u' f' (newVote u f v)) eqn:E; cbn [List.length].
  - apply matches_eq in E. cbn in E. destruct E as [<- <-].
    rewrite Hnone. cbn. lia.
  - specialize (H u' f'). lia.
Qed.

(** Under the invariant, [.single()] finds a row exactly when there is
    one, and otherwise there is none. *)
Lemma single_or_none u f t :
  atMostOnePerPair t ->
  (exists r, filter (matches u f) t = [r]) \/ filter (matches u f) t = [].
Proof.
  intro H. specialize (H u f).
  destruct (filter (matches u f) t) as [|r [|r' l]]; cbn in H.
  - now right.
  - left. now exists r.
  - lia.
Qed.

(** The table after any run of the action is the table before, or the
    result of the one write of the branch taken. *)
Lemma castVoteAction_table be u f v t :
  let t' := snd (castVoteAction be u f v t) in
  t' = t \/
  (exists r, filter (matches u f) t = [r] /\
             ((vote_type r = v /\ t' = withoutVote u f t) \/
              (vote_type r <> v /\ t' = map (retyped u f v) t))) \/
  ((forall r, filter (matches u f) t <> [r]) /\ t' = t ++ [newVote u f v]).
Proof.
  unfold castVoteAction.
  destruct (isEmpty u || isEmpty f); [now left|].
  unfold_calls.
  destruct be as [su af sf wf inf]; cbn.
  destruct af; cbn; try (now left).
  destruct su as [uid|]; cbn; try (now left).
  destruct (String.eqb uid u); cbn; try (now left).
  destruct sf; cbn; try (now left).
  destruct (filter (matches u f) t) as [|r [|r' l]] eqn:Hf; cbn.
  - destruct wf, inf; cbn; try (now left);
      right; right; split; try reflexivity; intros r0 H0; discriminate.
  - destruct (VoteType_eqb (vote_type r) v) eqn:Ev.
    + apply VoteType_eqb_eq in Ev.
      destruct wf, inf; cbn; try (now left);
        right; left; exists r; split; try reflexivity; left; now split.
    + assert (vote_type r <> v)
        by (intro E; apply VoteType_eqb_eq in E; congruence).
      destruct wf, inf; cbn; try (now left);
        right; left; exists r; split; try reflexivity; right; now split.
  - destruct wf, inf; cbn; try (now left);
      right; right; split; try reflexivity; intros r0 H0; discriminate.
Qed.

Lemma castVoteAction_preserves be u f v t :
  atMostOnePerPair t -> atMostOnePerPair (snd (castVoteAction be u f v t)).
Proof.
  intro H.
  destruct (castVoteAction_table be u f v t)
    as [E | [[r [_ [[_ E] | [_ E]]]] | [Hn E]]]; rewrite E.
  - exact H.
  - now apply atMostOne_withoutVote.
  - now apply atMostOne_retyped.
  - apply atMostOne_insert; [exact H|].
    destruct (single_or_none u f t H) as [[r Hr] | Hnone];
      [now apply Hn in Hr | exact Hnone].
Qed.

(** A row is added only when the pair had no vote. *)
Lemma castVoteAction_grows be u f v t :
  atMostOnePerPair t ->
  (List.length t < List.length (snd (castVoteAction be u f v t)))%nat ->
  filter (matches u f) t = [] /\
  snd (castVoteAction be u f v t) = t ++ [newVote u f v].
Proof.
  intros H Hlen.
  destruct (castVoteAction_table be u f v t)
    as [E | [[r [_ [[_ E] | [_ E]]]] | [Hn E]]]; rewrite E in Hlen |- *.
  - lia.
  - unfold withoutVote in Hlen.
    pose proof (filter_length_le (fun r => negb (matches u f r)) t). lia.
  - rewrite length_map in Hlen. lia.
  - split; [|reflexivity].
    destruct (single_or_none u f t H) as [[r Hr] | Hnone];
      [now apply Hn in Hr | exact Hnone].
Qed.

(** With a backend that answers, the run is decided by the existing vote. *)
Lemma castVoteAction_healthy be u f v t :
  u <> ""%string -> f <> ""%string -> writesFor be u ->
  castVoteAction be u f v t =
  (Returned success,
   match filter (matches u f) t with
   | [r] => if VoteType_eqb (vote_type r) v
            then withoutVote u f t
            else map (retyped u f v) t
   | _ => t ++ [newVote u f v]
   end).
Proof.
  intros Hu Hf (Hs & Ha & Hsel & Hw).
  unfold castVoteAction, isEmpty.
  apply String.eqb_neq in Hu, Hf. rewrite Hu, Hf. cbn [orb].
  unfold_calls.
  rewrite Ha, Hs, Hsel, Hw. cbn. rewrite String.eqb_refl. cbn.
  destruct (filter (matches u f) t) as [|r [|r' l]]; cbn.
  - destruct (invoke_fault be); reflexivity.
  - destruct (VoteType_eqb (vote_type r) v); cbn;
      destruct (invoke_fault be); reflexivity.
  - destruct (invoke_fault be); reflexivity.
Qed.

Lemma filter_singleton_of_In u f t r :
  atMostOnePerPair t -> In r t -> matches u f r = true ->
  filter (matches u f) t = [r].
Proof.
  intros H Hin Hm.
  assert (Hr : In r (filter (matches u f) t)) by (apply filter_In; now split).
  specialize (H u f).
  destruct (filter (matches u f) t) as [|r0 [|r1 l]]; cbn in H.
  - destruct Hr.
  - destruct Hr as [-> | []]. reflexivity.
  - lia.
Qed.

Lemma filter_nil_of_none {A} (p : A -> bool) (l : list A) :
  (forall a, In a l -> p a = false) -> filter p l = [].
Proof.
  induction l as [|a l IH]; intro H; cbn; [reflexivity|].
  rewrite (H a (or_introl eq_refl)). apply IH. intros b Hb. apply H. now right.
Qed.

(** C6: casting a vote is a toggle/update.  Every run keeps at most one
    vote row per (user, finding) pair, and adds a row only when the pair
    had no vote; and when the backend answers, an
    existing vote of the same type is deleted, an existing vote of the
    opposite type is updated in place (same rows, same order, only its type
    changed), and only without an existing vote is a new row inserted. *)
Theorem C6_vote_toggle be u f v t :
  atMostOnePerPair t ->
  atMostOnePerPair (snd (castVoteAction be u f v t)) /\
  ((List.length t < List.length (snd (castVoteAction be u f v t)))%nat ->
   filter (matches u f) t = [] /\
   snd (castVoteAction be u f v t) = t ++ [newVote u f v]) /\
  (u <> ""%string -> f <> ""%string -> writesFor be u ->
   (forall r, In r t -> matches u f r = true -> vote_type r = v ->
      snd (castVoteAction be u f v t) = withoutVote u f t /\
      filter (matches u f) (snd (castVoteAction be u f v t)) = []) /\
   (forall r, In r t -> matches u f r = true -> vote_type r <> v ->
      snd (castVoteAction be u f v t) = map (retyped u f v) t /\
      filter (matches u f) (snd (castVoteAction be u f v t))
      = [newVote (user_id r) (finding_id r) v]) /\
   ((forall r, In r t -> matches u f r = false) ->
      snd (castVoteAction be u f v t) = t ++ [newVote u f v])).
Proof.
  intro Hinv. split; [now apply castVoteAction_preserves|].
  split; [now apply castVoteAction_grows|].
  intros Hu Hf Hbe. rewrite (castVoteAction_healthy be u f v t Hu Hf Hbe).
  cbn [snd]. split; [|split].
  - intros r Hin Hm Hty.
    rewrite (filter_singleton_of_In u f t r Hinv Hin Hm).
    apply VoteType_eqb_eq in Hty. rewrite Hty. split; [reflexivity|].
    unfold withoutVote. apply filter_nil_of_none.
    intros a Ha. apply filter_In in Ha. destruct Ha as [_ Ha].
    now apply negb_true_iff in Ha.
  - intros r Hin Hm Hty.
    rewrite (filter_singleton_of_In u f t r Hinv Hin Hm).
    destruct (VoteType_eqb (vote_type r) v) eqn:E;
      [apply VoteType_eqb_eq in E; contradiction |].
    split; [reflexivity|].
    rewrite filter_map_retyped, (filter_singleton_of_In u f t r Hinv Hin Hm).
    cbn. unfold retyped. now rewrite Hm.
  - intro Hnone. now rewrite (filter_nil_of_none _ _ Hnone).
Qed.

End Votes.

Section VoteProcessor.
Import CommunityActions.

Lemma votes0_atMostOne : atMostOnePerPair votes0.
Proof.
  intros u f. unfold votes0. cbn [filter].
  destruct (matches u f aliceUp) eqn:Ea, (matches u f bobDown) eqn:Eb;
    cbn; try lia.
  apply matches_eq in Ea, Eb. cbn in Ea, Eb.
  destruct Ea as [<- _], Eb as [E _]. discriminate E.
Qed.

Lemma C6_vote_toggle_witness :
  atMostOnePerPair
    (snd (castVoteAction (aliceBackend Healthy) "alice" "f1" upvote votes0)) /\
  snd (castVoteAction (aliceBackend Healthy) "alice" "f1" upvote votes0)
  = [bobDown] /\
  snd (castVoteAction (aliceBackend Healthy) "alice" "f1" downvote votes0)
  = [newVote "alice" "f1" downvote; bobDown] /\
  snd (castVoteAction (aliceBackend Healthy) "alice" "f2" upvote votes0)
  = [aliceUp; bobDown; newVote "alice" "f2" upvote].
Proof.
  split; [|split; [|split]].
  - exact (proj1 (C6_vote_toggle (aliceBackend Healthy) "alice" "f1" upvote
                                 votes0 votes0_atMostOne)).
  - reflexivity.
  - reflexivity.
  - reflexivity.
Defined.

(** The vote processor has no influence on the run at all. *)
Lemma castVoteAction_processor_irrelevant be processor u f v t :
  castVoteAction (withProcessor be processor) u f v t
  = castVoteAction be u f v t.
Proof.
  unfold castVoteAction.
  destruct (isEmpty u || isEmpty f); [reflexivity|].
  unfold_calls.
  destruct be as [su af sf wf inf]; cbn.
  destruct af; cbn; try reflexivity.
  destruct su as [uid|]; cbn; try reflexivity.
  destruct (String.eqb uid u); cbn; try reflexivity.
  destruct sf; cbn; try reflexivity.
  destruct (filter (matches u f) t) as [|r [|r' l]]; cbn;
    try destruct (VoteType_eqb (vote_type r) v);
    destruct wf, inf, processor; reflexivity.
Qed.

(** The action itself never throws: its outer [catch] returns an error. *)
Lemma castVoteAction_returns be u f v t :
  exists res, fst (castVoteAction be u f v t) = Returned res.
Proof.
  unfold castVoteAction.
  destruct (isEmpty u || isEmpty f); [eexists; reflexivity|].
  unfold_calls.
  destruct be as [su af sf wf inf]; cbn.
  destruct af; cbn; try (eexists; reflexivity).
  destruct su as [uid|]; cbn; try (eexists; reflexivity).
  destruct (String.eqb uid u); cbn; try (eexists; reflexivity).
  destruct sf; cbn; try (eexists; reflexivity).
  destruct (filter (matches u f) t) as [|r [|r' l]]; cbn;
    try destruct (VoteType_eqb (vote_type r) v);
    destruct wf, inf; eexists; reflexivity.
Qed.

(** C10: once the vote row has been inserted, updated or deleted, the
    action returns success whatever the vote processor does: whether the
    call that refreshes the cached counts answers, answers with an error or
    throws, the result is [{ success: true }] and the table is the same. *)
Theorem C10_processor_failure_not_surfaced be u f v t processor :
  u <> ""%string -> f <> ""%string -> writesFor be u ->
  fst (castVoteAction (withProcessor be processor) u f v t) = Returned success /\
  snd (castVoteAction (withProcessor be processor) u f v t)
  = snd (castVoteAction (withProcessor be Healthy) u f v t).
Proof.
  intros Hu Hf Hbe. rewrite !castVoteAction_processor_irrelevant.
  now rewrite (castVoteAction_healthy be u f v t Hu Hf Hbe).
Qed.

Lemma C10_processor_failure_not_surfaced_witness :
  fst (castVoteAction (aliceBackend Throws) "alice" "f1" upvote votes0)
  = Returned success /\
  fst (castVoteAction (aliceBackend (Rejects "boom")) "alice" "f2" upvote votes0)
  = Returned success.
Proof.
  split.
  - refine (proj1 (C10_processor_failure_not_surfaced
                     (aliceBackend Healthy) "alice" "f1" upvote votes0 Throws
                     _ _ _)); [discriminate | discriminate | repeat split].
  - refine (proj1 (C10_processor_failure_not_surfaced
                     (aliceBackend Healthy) "alice" "f2" upvote votes0
                     (Rejects "boom") _ _ _));
      [discriminate | discriminate | repeat split].
Defined.

End VoteProcessor.

Section GroupStatistics.
Import Js Experiments ExperimentResultsDialog.







End GroupStatistics.

Section GroupSamples.
Import Js Experiments ExperimentResultsDialog.


(** The end-to-end scenario of the specification: averages 7.6 and 3.4,
    counts 5 and 5. *)
Example tenDays_results :
  let results := analyzeExperimentResults noSplit walkExperiment tenDays in
  averageText (positiveConditionAverage results) = "7.6"%string /\
  averageText (negativeConditionAverage results) = "3.4"%string /\
  positiveConditionCount results = 5%nat /\
  negativeConditionCount results = 5%nat /\
  option_map toFixed1 (difference results) = Some "4.2"%string /\
  getImpactStrength (difference results) = "Strong"%string /\
  getImpactDirection (difference results) = "Positive"%string.
Proof. repeat split. Qed.

End GroupSamples.

Section Lab.
Import Experiments LabPage.

(** Every mutation fired by the memo completes an experiment of the list
    that is active and whose end date is before today. *)
Lemma autoMutations_sound today experiments m :
  In m (autoMutations today experiments) ->
  exists exp, In exp experiments /\ target m = id exp /\
              status exp = ACTIVE /\
              String.ltb (end_date exp) today = true /\
              newStatus m = COMPLETED.
Proof.
  unfold autoMutations.
  induction experiments as [|exp rest IH]; cbn; [intros []|].
  destruct (activeExperimentsMemo today rest) as [kept firedRest].
  unfold activeStep.
  destruct (status exp) eqn:Es; cbn [Status_eqb andb].
  - destruct (String.ltb (end_date exp) today) eqn:El; cbn [snd app].
    + intros [<- | H].
      * exists exp. cbn. auto.
      * destruct (IH H) as [e [He Hrest]]. exists e. split; [now right | exact Hrest].
    + intro H. destruct (IH H) as [e [He Hrest]]. exists e.
      split; [now right | exact Hrest].
  - cbn [snd app]. intro H. destruct (IH H) as [e [He Hrest]]. exists e.
    split; [now right | exact Hrest].
Qed.

(** The active list holds experiments of the list that are active and
    whose end date is not before today. *)
Lemma activeExperiments_sound today experiments exp :
  In exp (activeExperiments today experiments) <->
  In exp experiments /\ status exp = ACTIVE /\
  String.ltb (end_date exp) today = false.
Proof.
  unfold activeExperiments.
  induction experiments as [|e rest IH]; cbn; [tauto|].
  destruct (activeExperimentsMemo today rest) as [kept firedRest].
  cbn [fst] in IH. unfold activeStep.
  destruct (status e) eqn:Es; cbn [Status_eqb andb].
  - destruct (String.ltb (end_date e) today) eqn:El; cbn [fst].
    + rewrite IH. split.
      * intros (H & H1 & H2). auto.
      * intros ([-> | H] & H1 & H2); [congruence | auto].
    + cbn [In]. rewrite IH. split.
      * intros [-> | (H & H1 & H2)]; auto.
      * intros ([-> | H] & H1 & H2); auto.
  - cbn [fst]. rewrite IH. split.
    + intros (H & H1 & H2). auto.
    + intros ([-> | H] & H1 & H2); [congruence | auto].
Qed.

Lemma completedExperiments_sound experiments exp :
  In exp (completedExperiments experiments) <->
  In exp experiments /\ status exp = COMPLETED.
Proof.
  unfold completedExperiments. rewrite filter_In.
  destruct (status exp); cbn; intuition congruence.
Qed.

Lemma experimentsToDisplay_incl tab today experiments exp :
  In exp (experimentsToDisplay tab today experiments) -> In exp experiments.
Proof.
  destruct tab; cbn.
  - intro H. now apply activeExperiments_sound in H.
  - intro H. now apply completedExperiments_sound in H.
Qed.

(** C7: the only status transitions the page performs are ACTIVE to
    COMPLETED, automatically for an active experiment whose end date is
    strictly before today or by the "Complete" button of an active
    experiment, and COMPLETED to ACTIVE by the "Reactivate" button of a
    completed experiment; and the active list never keeps an experiment
    whose end date has passed. *)
Theorem C7_status_transitions tab today experiments :
  (forall tr m, fires tab today experiments tr m ->
     exists exp, In exp experiments /\ allowedTransition today exp tr m) /\
  (forall exp, In exp (activeExperiments today experiments) ->
     status exp = ACTIVE /\ String.ltb (end_date exp) today = false).
Proof.
  split.
  - intros [|card b] m; cbn [fires].
    + intro H. destruct (autoMutations_sound _ _ _ H) as [exp (Hin & Ht & Hrest)].
      exists exp. split; [exact Hin|]. split; [exact Ht | exact Hrest].
    + intros [Hdisp Hbtn]. exists card.
      split; [now apply experimentsToDisplay_incl in Hdisp|].
      unfold cardButtons in Hbtn. apply in_app_or in Hbtn.
      destruct (status card) eqn:Es; cbn in Hbtn;
        destruct Hbtn as [H|H]; try contradiction;
        destruct H as [H|[]]; injection H as <- <-;
        unfold allowedTransition; cbn; auto.
  - intros exp H. now apply activeExperiments_sound in H.
Qed.

End Lab.

Section LabSamples.
Import Experiments LabPage.

Lemma C7_status_transitions_witness :
  autoMutations "2024-03-15" labExperiments
  = [{| target := "e1"; newStatus := COMPLETED |}] /\
  (exists exp, In exp labExperiments /\
     allowedTransition "2024-03-15" exp Auto
                       {| target := "e1"; newStatus := COMPLETED |}) /\
  activeExperiments "2024-03-15" labExperiments = [runningExperiment].
Proof.
  split; [reflexivity|]. split; [|reflexivity].
  apply (proj1 (C7_status_transitions active "2024-03-15" labExperiments)
               Auto {| target := "e1"; newStatus := COMPLETED |}).
  cbn. now left.
Defined.

End LabSamples.

(* ================================================================== *)
(** * Further properties of the data page *)

Section ChartLabels.
Import Js DataPage.

Lemma strict_eq_true a b : strict_eq a b = true <-> a == b.
Proof. apply Qeq_bool_iff. Qed.

Lemma strict_eq_false a b : strict_eq a b = false <-> ~ a == b.
Proof.
  unfold strict_eq. split.
  - intros H E. apply Qeq_bool_iff in E. congruence.
  - intro H. apply not_true_is_false. intro E. now apply Qeq_bool_iff in E.
Qed.

(** X1: wherever the boolean normalisation gives a point a value, that
    value is 2.5 or 7.5 and the right axis labels it as the tooltip words
    the point's comparison value ("Yes" for 1, "No" for 0). *)
Theorem X1_axis_label_agrees_with_tooltip d v x :
  comparisonValue d = Some v ->
  normalizedComparisonValue (normalizeBoolean d) = Some (Some x) ->
  (x = 7.5 \/ x = 2.5) /\
  scenarioC_formatter x = tooltipBoolean v /\
  (scenarioC_formatter x = "Yes"%string <-> v == 1) /\
  (scenarioC_formatter x = "No"%string <-> v == 0).
Proof.
  unfold normalizeBoolean, tooltipBoolean. cbn. intros -> H.
  destruct (strict_eq v 1) eqn:E1.
  - injection H as <-. apply strict_eq_true in E1.
    split; [now left|]. split; [reflexivity|]. split.
    + tauto.
    + split; [discriminate|]. intro E0. rewrite E0 in E1. discriminate E1.
  - destruct (strict_eq v 0) eqn:E0; [|discriminate].
    injection H as <-. apply strict_eq_true in E0. apply strict_eq_false in E1.
    split; [now right|]. split; [reflexivity|]. split.
    + split; [discriminate | contradiction].
    + tauto.
Qed.

Lemma X1_axis_label_agrees_with_tooltip_witness :
  scenarioC_formatter 7.5 = tooltipBoolean 1 /\
  scenarioC_formatter 7.5 = "Yes"%string.
Proof.
  destruct (X1_axis_label_agrees_with_tooltip
              (point "2024-03-01" (Some 8) (Some 1)) 1 7.5 eq_refl eq_refl)
    as (_ & Hagree & Hyes & _).
  split; [exact Hagree|]. apply Hyes. reflexivity.
Defined.








End ChartLabels.

Section AxisGeometry.
Import Js DataPage.

Lemma Math_max_ge_one (x : number) : 1 <= Math_max x 1.
Proof. apply Q.le_max_r. Qed.

Lemma Math_max_pos (x : number) : 0 < Math_max x 1.
Proof. eapply Qlt_le_trans; [|apply Math_max_ge_one]. reflexivity. Qed.


Lemma tick_inside (c s : Q) :
  0 < c -> c <= 1 -> 0 < s -> 0 < c * s /\ c * s <= s.
Proof.
  intros Hc Hc1 Hs. split.
  - rewrite <- (Qmult_0_l s). now apply Qmult_lt_r.
  - rewrite <- (Qmult_1_l s) at 2. now apply Qmult_le_r.
Qed.

Lemma scenarioA_ticks_inside (s : number) :
  0 < s ->
  List.length (scenarioA_ticks s) = 10%nat /\
  Forall (fun t => 0 < t /\ t <= s) (scenarioA_ticks s) /\
  last (scenarioA_ticks s) 0 == s.
Proof.
  intro Hs. split; [reflexivity|]. split.
  - unfold scenarioA_ticks. cbn [seq map].
    repeat (constructor;
            [apply tick_inside; [reflexivity | discriminate | exact Hs]|]).
    constructor.
  - unfold scenarioA_ticks. cbn [seq map last]. cbn. field.
Qed.

(** X3: with a NUMERIC primary and a SCALE_1_10 comparison metric both
    axes have the same domain [0, scaledMax] with scaledMax at least 1, and
    the ten right ticks lie inside it, the last one at its top. *)
Theorem X3_scenarioA_axes_synchronized pm cm rows cfg :
  item_type pm = NUMERIC -> item_type cm = SCALE_1_10 ->
  axisConfig (Some pm) (Some cm) rows = Some cfg ->
  leftDomain cfg = rightDomain cfg /\
  fst (rightDomain cfg) = 0 /\
  1 <= snd (rightDomain cfg) /\
  exists ticks,
    rightTicks cfg = Some ticks /\
    List.length ticks = 10%nat /\
    Forall (fun t => 0 < t /\ t <= snd (rightDomain cfg)) ticks /\
    last ticks 0 == snd (rightDomain cfg).
Proof.
  intros Hp Hc. unfold axisConfig, axisSync.
  destruct rows as [|d rows]; [discriminate|].
  rewrite Hp, Hc. cbn [MetricType_eqb andb snd]. intro H. injection H as <-.
  cbn [leftDomain rightDomain rightTicks fst snd].
  split; [reflexivity|]. split; [reflexivity|].
  split; [apply Math_max_ge_one|].
  eexists. split; [reflexivity|].
  apply scenarioA_ticks_inside, Math_max_pos.
Qed.

Lemma X3_scenarioA_axes_synchronized_witness :
  exists cfg,
    axisConfig (Some steps) (Some focus) stepsWeek = Some cfg /\
    leftDomain cfg = rightDomain cfg /\
    1 <= snd (rightDomain cfg).
Proof.
  eexists. split; [reflexivity|].
  destruct (X3_scenarioA_axes_synchronized steps focus stepsWeek _
              eq_refl eq_refl eq_refl) as (Hsame & _ & Hone & _).
  split; [exact Hsame | exact Hone].
Defined.

(** X4: in every configuration the synchronizer produces, each axis domain
    is a proper interval: its lower end is strictly below its upper end. *)
Theorem X4_domains_are_intervals pm cm rows cfg :
  axisConfig pm cm rows = Some cfg ->
  fst (leftDomain cfg) < snd (leftDomain cfg) /\
  fst (rightDomain cfg) < snd (rightDomain cfg).
Proof.
  unfold axisConfig, axisSync.
  destruct pm as [pm|]; [|discriminate].
  destruct rows as [|d rows]; [discriminate|].
  destruct cm as [cm|].
  - destruct (item_type pm), (item_type cm); cbn;
      intro H; injection H as <-; cbn;
      split; try reflexivity; apply Math_max_pos.
  - destruct (item_type pm); cbn; intro H; injection H as <-; cbn;
      split; try reflexivity; apply Math_max_pos.
Qed.

Lemma X4_domains_are_intervals_witness :
  exists cfg,
    axisConfig (Some steps) (Some exercised) stepsWeek = Some cfg /\
    fst (leftDomain cfg) < snd (leftDomain cfg) /\
    fst (rightDomain cfg) < snd (rightDomain cfg).
Proof.
  eexists. split; [reflexivity|].
  exact (X4_domains_are_intervals (Some steps) (Some exercised) stepsWeek _
                                  eq_refl).
Defined.





(** X6: the chart reads [normalizedComparisonValue] exactly in the
    boolean-on-scale scenario.  [normalizeComparison] is set if and only if
    the primary metric is SCALE_1_10 and the comparison metric BOOLEAN;
    then every charted point carries the normalised field, with a value
    inside the right domain when it is not null; otherwise the charted data
    is the raw data. *)
Theorem X6_normalized_field_present pm cm rows cfg :
  axisConfig (Some pm) cm rows = Some cfg ->
  (normalizeComparison cfg = true <->
   exists c, cm = Some c /\
             item_type pm = SCALE_1_10 /\ item_type c = BOOLEAN) /\
  (normalizeComparison cfg = true ->
   Forall (fun d => exists n,
               normalizedComparisonValue d = Some n /\
               forall x, n = Some x ->
                         fst (rightDomain cfg) <= x /\ x <= snd (rightDomain cfg))
          (chartData (Some pm) cm rows)) /\
  (normalizeComparison cfg = false -> chartData (Some pm) cm rows = rows).
Proof.
  unfold axisConfig, chartData, axisSync.
  destruct rows as [|d rows]; [discriminate|].
  destruct cm as [cm|].
  - destruct (item_type pm) eqn:Ep, (item_type cm) eqn:Ec; cbn;
      intro H; injection H as <-; cbn;
      (split; [split; [try discriminate; intros _; exists cm; auto
                      | try reflexivity;
                        intros (c & Hc & H1 & H2); injection Hc as <-;
                        congruence]
              | split; [try discriminate | try reflexivity; try discriminate]]).
    intros _. apply Forall_forall. intros p Hp.
    change (In p (map normalizeBoolean (d :: rows))) in Hp.
    apply in_map_iff in Hp. destruct Hp as (r & <- & _).
    unfold normalizeBoolean; cbn. eexists. split; [reflexivity|].
    intros x Hx. destruct (comparisonValue r) as [v|]; [|discriminate].
    destruct (strict_eq v 1); [injection Hx as <-; split; discriminate|].
    destruct (strict_eq v 0); [injection Hx as <-; split; discriminate|].
    discriminate.
  - intro H; injection H as <-; cbn. split; [|split].
    + split; [discriminate | intros (c & Hc & _); discriminate].
    + discriminate.
    + reflexivity.
Qed.

Lemma X6_normalized_field_present_witness :
  Forall (fun d => exists n, normalizedComparisonValue d = Some n)
         (chartData (Some mood) (Some exercised) threeDays) /\
  chartData (Some steps) (Some exercised) stepsWeek = stepsWeek.
Proof.
  split.
  - destruct (X6_normalized_field_present mood (Some exercised) threeDays _
                eq_refl) as (_ & Hall & _).
    specialize (Hall eq_refl).
    eapply Forall_impl; [|exact Hall].
    intros a (n & Hn & _). now exists n.
  - destruct (X6_normalized_field_present steps (Some exercised) stepsWeek _
                eq_refl) as (_ & _ & Hraw).
    exact (Hraw eq_refl).
Defined.

End AxisGeometry.

Section Statistics.
Import Js DataPage.

Lemma Math_min_cases a b : Math_min a b = a \/ Math_min a b = b.
Proof.
  unfold Math_min, Qmin, GenericMinMax.gmin. destruct (a ?= b); auto.
Qed.

Lemma Math_min_spread_In v vs : In (Math_min_spread v vs) (v :: vs).
Proof.
  unfold Math_min_spread. revert v.
  induction vs as [|w vs IH]; intro v; cbn [fold_left].
  - now left.
  - destruct (IH (Math_min v w)) as [H|H].
    + rewrite <- H.
      destruct (Math_min_cases v w) as [E|E]; rewrite E.
      * now left.
      * right; now left.
    + right; now right.
Qed.

Lemma Math_min_spread_le_init v vs : Math_min_spread v vs <= v.
Proof.
  unfold Math_min_spread. revert v.
  induction vs as [|w vs IH]; intro v; cbn [fold_left].
  - apply Qle_refl.
  - eapply Qle_trans; [apply IH|]. apply Q.le_min_l.
Qed.

Lemma Math_min_spread_lower v vs x :
  In x (v :: vs) -> Math_min_spread v vs <= x.
Proof.
  revert v. induction vs as [|w vs IH]; intros v [H|H].
  - subst. apply Qle_refl.
  - destruct H.
  - subst. apply Math_min_spread_le_init.
  - change (Math_min_spread v (w :: vs))
      with (Math_min_spread (Math_min v w) vs).
    destruct H as [H|H].
    + subst. eapply Qle_trans; [apply Math_min_spread_le_init|].
      apply Q.le_min_r.
    + apply IH. now right.
Qed.

Lemma validValues_length values :
  List.length (validValues values)
  = List.length (filter (fun v => match v with Some _ => true | None => false end)
                        values).
Proof.
  unfold validValues. induction values as [|[x|] values IH]; cbn; congruence.
Qed.

Lemma validValues_In values x :
  In x (validValues values) <-> In (Some x) values.
Proof.
  unfold validValues. rewrite in_flat_map. split.
  - intros [[y|] [Hy Hin]]; cbn in Hin; [|contradiction].
    destruct Hin as [<- | []]. exact Hy.
  - intro H. exists (Some x). split; [exact H | now left].
Qed.

(** X7: [getMetricStats] counts the values that are present, and with at
    least one of them its [min] and [max] are the least and the greatest
    of them (so [min <= max]); a zero among the values counts like any
    other value.  Without any value all four statistics are 0. *)
Theorem X7_stats_min_max_count values :
  count (getMetricStats values)
  = List.length (filter (fun v => match v with Some _ => true | None => false end)
                        values) /\
  (validValues values <> [] ->
   isMinimumOf (min (getMetricStats values)) (validValues values) /\
   isMaximumOf (max (getMetricStats values)) (validValues values) /\
   min (getMetricStats values) <= max (getMetricStats values)) /\
  (validValues values = [] ->
   getMetricStats values = {| avg := 0; min := 0; max := 0; count := 0 |}).
Proof.
  rewrite <- validValues_length. unfold getMetricStats.
  destruct (validValues values) as [|v vs] eqn:E.
  - split; [reflexivity|]. split; [congruence | reflexivity].
  - split; [reflexivity|]. split; [|discriminate]. intros _.
    cbn [min max]. split; [|split].
    + split; [apply Math_min_spread_In|].
      intros x Hx. now apply Math_min_spread_lower.
    + split; [apply Math_max_spread_In|].
      intros x Hx. now apply Math_max_spread_upper.
    + eapply Qle_trans;
        [apply Math_min_spread_le_init | apply Math_max_spread_ge_init].
Qed.

Lemma X7_stats_min_max_count_witness :
  count (primaryStats stepsWeek) = 2%nat /\
  min (primaryStats stepsWeek) <= max (primaryStats stepsWeek) /\
  isMaximumOf (max (primaryStats stepsWeek)) [4200; 9000].
Proof.
  destruct (X7_stats_min_max_count (map primaryValue stepsWeek))
    as (Hcount & Hsome & _).
  destruct (Hsome ltac:(discriminate)) as (_ & Hmax & Hle).
  split; [exact Hcount|]. split; [exact Hle | exact Hmax].
Defined.

Lemma comparisonIs_exclusive d :
  comparisonIs 1 d = true -> comparisonIs 0 d = true -> False.
Proof.
  unfold comparisonIs. destruct (comparisonValue d) as [v|]; [|discriminate].
  intros H1 H0. apply Qeq_bool_iff in H1, H0. rewrite H1 in H0. discriminate H0.
Qed.

Lemma comparisonIs_present n d :
  comparisonIs n d = true -> comparisonPresent d = true.
Proof.
  unfold comparisonIs, comparisonPresent. now destruct (comparisonValue d).
Qed.

Lemma comparison_zero_or_one d :
  (forall v, comparisonValue d = Some v -> v == 1 \/ v == 0) <->
  (comparisonPresent d = false \/
   comparisonIs 1 d = true \/ comparisonIs 0 d = true).
Proof.
  unfold comparisonIs, comparisonPresent, strict_eq.
  destruct (comparisonValue d) as [v|].
  - rewrite !Qeq_bool_iff. split.
    + intro H. right. now apply H.
    + intros [H|H] w Hw; [discriminate|]. now injection Hw as <-.
  - split; [now left | discriminate].
Qed.

(** X9: in the statistics of a BOOLEAN comparison metric no point is
    counted twice: [trueCount + falseCount <= totalCount], with equality
    exactly when every present comparison value is 0 or 1. *)
Theorem X9_boolean_counts chartData :
  let st := booleanStats chartData in
  (trueCount st + falseCount st <= totalCount st)%nat /\
  ((trueCount st + falseCount st = totalCount st)%nat <->
   Forall (fun d => forall v, comparisonValue d = Some v -> v == 1 \/ v == 0)
          chartData).
Proof.
  unfold booleanStats. cbn [trueCount falseCount totalCount].
  induction chartData as [|d rows [IHle IHeq]].
  - cbn. split; [lia|]. split; [constructor | reflexivity].
  - cbn [filter].
    pose proof (comparisonIs_exclusive d) as Hex.
    pose proof (comparisonIs_present 1 d) as Hp1.
    pose proof (comparisonIs_present 0 d) as Hp0.
    rewrite Forall_cons_iff, comparison_zero_or_one, <- IHeq.
    destruct (comparisonIs 1 d), (comparisonIs 0 d), (comparisonPresent d);
      cbn [List.length];
      try (exfalso; auto; fail);
      try (exfalso; discriminate (Hp1 eq_refl); fail);
      try (exfalso; discriminate (Hp0 eq_refl); fail);
      (split; [lia|]);
      (split; [intro H; split;
                 [first [now left | now (right; left) | now (right; right)
                        | exfalso; lia]
                 | lia]
              | intros [[H|[H|H]] H']; try discriminate H; lia]).
Qed.

End Statistics.

(* ================================================================== *)
(** * Further properties of the experiment results dialog *)

Section ImpactSummary.
Import Js Experiments ExperimentResultsDialog.

Lemma ge_true a b : ge a b = true <-> b <= a.
Proof. apply Qle_bool_iff. Qed.

Lemma lt_true a b : lt a b = true <-> a < b.
Proof.
  unfold lt. rewrite negb_true_iff. split.
  - intro H. apply Qnot_le_lt. intro Hle. apply Qle_bool_iff in Hle. congruence.
  - intro H. apply not_true_is_false. intro Hle. apply Qle_bool_iff in Hle.
    now apply Qlt_not_le in H.
Qed.

Lemma gt_true a b : gt a b = true <-> b < a.
Proof. unfold gt. apply (lt_true b a). Qed.

Lemma ge_compat a a' b : a == a' -> ge a b = ge a' b.
Proof.
  intro E. destruct (ge a b) eqn:H, (ge a' b) eqn:H'; try reflexivity.
  - apply ge_true in H. rewrite E in H. apply ge_true in H. congruence.
  - apply ge_true in H'. rewrite <- E in H'. apply ge_true in H'. congruence.
Qed.

Lemma getImpactStrength_opp (d : Q) :
  getImpactStrength (Some (- d)) = getImpactStrength (Some d).
Proof.
  unfold getImpactStrength, Math_abs.
  now rewrite !(ge_compat (Qabs (- d)) (Qabs d)) by apply Qabs_opp.
Qed.

Lemma getImpactStrength_compat (d d' : Q) :
  d == d' -> getImpactStrength (Some d) = getImpactStrength (Some d').
Proof.
  intro E. unfold getImpactStrength, Math_abs.
  now rewrite !(ge_compat (Qabs d) (Qabs d')) by now rewrite E.
Qed.

Lemma getImpactDirection_cases (d : Q) :
  (getImpactDirection (Some d) = "Positive"%string /\ 0 < d) \/
  (getImpactDirection (Some d) = "Negative"%string /\ d < 0) \/
  (getImpactDirection (Some d) = "No"%string /\ d == 0).
Proof.
  unfold getImpactDirection.
  destruct (gt d 0) eqn:Hg.
  - left. split; [reflexivity | now apply gt_true].
  - destruct (lt d 0) eqn:Hl.
    + right; left. split; [reflexivity | now apply lt_true].
    + right; right. split; [reflexivity|].
      apply Qle_antisym.
      * apply Qnot_lt_le. intro H. apply gt_true in H. congruence.
      * apply Qnot_lt_le. intro H. apply lt_true in H. congruence.
Qed.

(** X10: exchanging the two condition groups keeps the impact strength and
    reverses the impact direction ("Positive" and "Negative" are exchanged,
    "No" and the empty direction of missing data stay). *)
Theorem X10_swapping_groups (r : ExperimentResults) :
  getImpactStrength (difference (swapGroups r))
  = getImpactStrength (difference r) /\
  getImpactDirection (difference (swapGroups r))
  = oppositeDirection (getImpactDirection (difference r)).
Proof.
  unfold difference, swapGroups.
  cbn [positiveConditionAverage negativeConditionAverage].
  destruct (positiveConditionAverage r) as [p|],
           (negativeConditionAverage r) as [n|]; try (split; reflexivity).
  split.
  - rewrite <- (getImpactStrength_opp (p - n)).
    apply getImpactStrength_compat. ring.
  - destruct (getImpactDirection_cases (p - n)) as [[E H]|[[E H]|[E H]]];
      destruct (getImpactDirection_cases (n - p)) as [[E' H']|[[E' H']|[E' H']]];
      rewrite E, E'; try reflexivity; exfalso; lra.
Qed.

(** X11: the direction of the impact and the verdict on the hypothesis
    follow the order of the two averages: "Positive" and "supported" exactly
    when the positive average is above the negative one, "Negative" and
    "contradicted" exactly when it is below, "No" and "no clear
    relationship" exactly when they are equal. *)
Theorem X11_direction_and_verdict (r : ExperimentResults) (p n : Q) :
  positiveConditionAverage r = Some p ->
  negativeConditionAverage r = Some n ->
  (n < p <->
   getImpactDirection (difference r) = "Positive"%string) /\
  (n < p <->
   hypothesisVerdict r
   = Some "Your hypothesis appears to be supported by the data."%string) /\
  (p < n <->
   getImpactDirection (difference r) = "Negative"%string) /\
  (p < n <->
   hypothesisVerdict r
   = Some "Your hypothesis appears to be contradicted by the data."%string) /\
  (p == n <->
   getImpactDirection (difference r) = "No"%string) /\
  (p == n <->
   hypothesisVerdict r
   = Some "The data shows no clear relationship between the variables."%string).
Proof.
  intros Hp Hn. unfold hypothesisVerdict, difference. rewrite Hp, Hn.
  unfold getImpactDirection.
  destruct (gt (p - n) 0) eqn:Hg.
  - apply gt_true in Hg.
    repeat split; intro H; try reflexivity; try discriminate H; try lra.
  - destruct (lt (p - n) 0) eqn:Hl.
    + apply lt_true in Hl.
      repeat split; intro H; try reflexivity; try discriminate H; try lra.
    + assert (Hz : p - n == 0).
      { apply Qle_antisym.
        - apply Qnot_lt_le. intro H. apply gt_true in H. congruence.
        - apply Qnot_lt_le. intro H. apply lt_true in H. congruence. }
      repeat split; intro H; try reflexivity; try discriminate H; try lra.
Qed.

Lemma X11_direction_and_verdict_witness :
  let results := analyzeExperimentResults noSplit walkExperiment tenDays in
  getImpactDirection (difference results) = "Positive"%string /\
  hypothesisVerdict results
  = Some "Your hypothesis appears to be supported by the data."%string.
Proof.
  intro results.
  destruct (X11_direction_and_verdict results (38 / 5) (17 / 5)
              eq_refl eq_refl) as (Hdir & Hverdict & _).
  split; [apply Hdir | apply Hverdict]; reflexivity.
Defined.

(** X12: the data completeness is a percentage.  When the days with data
    do not exceed the total days it lies between 0 and 100, and it is 100
    exactly when every day has data; with no day at all it is 0 (there is
    no division by zero). *)
Theorem X12_data_completeness (r : ExperimentResults) :
  (daysWithData r <= totalDays r)%nat ->
  0 <= dataCompleteness r /\ dataCompleteness r <= 100 /\
  (totalDays r = 0%nat -> dataCompleteness r = 0) /\
  ((0 < totalDays r)%nat ->
   (dataCompleteness r == 100 <-> daysWithData r = totalDays r)).
Proof.
  intro Hle. unfold dataCompleteness.
  destruct (Nat.ltb_spec 0 (totalDays r)) as [Hpos|Hzero].
  - assert (Ht : 0 < inject_Z (Z.of_nat (totalDays r))).
    { change 0 with (inject_Z 0). rewrite <- Zlt_Qlt. lia. }
    assert (Hd : 0 <= inject_Z (Z.of_nat (daysWithData r))).
    { change 0 with (inject_Z 0). rewrite <- Zle_Qle. lia. }
    assert (Hdt : inject_Z (Z.of_nat (daysWithData r))
                  <= inject_Z (Z.of_nat (totalDays r))).
    { rewrite <- Zle_Qle. lia. }
    set (t := inject_Z (Z.of_nat (totalDays r))) in *.
    set (d := inject_Z (Z.of_nat (daysWithData r))) in *.
    assert (Hq0 : 0 <= d / t).
    { apply Qle_shift_div_l; [exact Ht|]. now rewrite Qmult_0_l. }
    assert (Hq1 : d / t <= 1).
    { apply Qle_shift_div_r; [exact Ht|]. now rewrite Qmult_1_l. }
    split; [|split; [|split]].
    + set (q := d / t) in *. clearbody q. lra.
    + set (q := d / t) in *. clearbody q. lra.
    + intro H. lia.
    + intros _. split.
      * intro H.
        assert (Hq : d / t == 1).
        { set (q := d / t) in *. clearbody q. lra. }
        assert (Hdt' : d == t).
        { rewrite <- (Qmult_1_l t), <- Hq. field.
          intro E. rewrite E in Ht. discriminate Ht. }
        unfold d, t in Hdt'.
        apply (proj1 (inject_Z_injective _ _)) in Hdt'. lia.
      * intro H. unfold d, t. rewrite H. field.
        intro E. fold t in E. rewrite E in Ht. discriminate Ht.
  - split; [discriminate|]. split; [discriminate|].
    split; [reflexivity | lia].
Qed.

Lemma X12_data_completeness_witness :
  let results := analyzeExperimentResults noSplit walkExperiment restDays in
  0 <= dataCompleteness results /\ dataCompleteness results <= 100.
Proof.
  intro results.
  destruct (X12_data_completeness results ltac:(cbn; lia)) as (H0 & H100 & _).
  split; [exact H0 | exact H100].
Defined.

End ImpactSummary.

(* ================================================================== *)
(** * Further properties of the vote action *)

Section VoteSemantics.
Import CommunityActions.

Lemma filter_others_withoutVote u f (t : Table) :
  filter (fun r => negb (matches u f r)) (withoutVote u f t) = withoutVote u f t.
Proof.
  unfold withoutVote. induction t as [|r t IH]; cbn; [reflexivity|].
  destruct (negb (matches u f r)) eqn:E; cbn; rewrite ?E, IH; reflexivity.
Qed.

Lemma filter_others_retyped u f v (t : Table) :
  filter (fun r => negb (matches u f r)) (map (retyped u f v) t)
  = filter (fun r => negb (matches u f r)) t.
Proof.
  induction t as [|r t IH]; cbn; [reflexivity|].
  rewrite matches_retyped, IH.
  destruct (matches u f r) eqn:E; cbn; [reflexivity|].
  unfold retyped. now rewrite E.
Qed.

Lemma filter_others_insert u f v (t : Table) :
  filter (fun r => negb (matches u f r)) (t ++ [newVote u f v])
  = filter (fun r => negb (matches u f r)) t.
Proof.
  rewrite filter_app. cbn. unfold matches, newVote. cbn.
  rewrite !String.eqb_refl. cbn. apply app_nil_r.
Qed.

(** X13: casting a vote never touches the votes of other users or on other
    findings: the rows that do not belong to the pair (user, finding) are
    the same, in the same order, after every run, whatever the backend
    does. *)
Theorem X13_other_votes_untouched be u f v t :
  filter (fun r => negb (matches u f r)) (snd (castVoteAction be u f v t))
  = filter (fun r => negb (matches u f r)) t.
Proof.
  destruct (castVoteAction_table be u f v t)
    as [E | [[r [_ [[_ E] | [_ E]]]] | [_ E]]]; rewrite E.
  - reflexivity.
  - apply filter_others_withoutVote.
  - apply filter_others_retyped.
  - apply filter_others_insert.
Qed.

(** The result of a run and the table it leaves: an error and the table as
    it was, or success and the one write of the branch taken. *)
Lemma castVoteAction_outcome be u f v t :
  (exists msg, castVoteAction be u f v t = (Returned (error msg), t)) \/
  (fst (castVoteAction be u f v t) = Returned success /\
   ((exists r, filter (matches u f) t = [r] /\
               ((vote_type r = v /\
                 snd (castVoteAction be u f v t) = withoutVote u f t) \/
                (vote_type r <> v /\
                 snd (castVoteAction be u f v t) = map (retyped u f v) t))) \/
    snd (castVoteAction be u f v t) = t ++ [newVote u f v])).
Proof.
  unfold castVoteAction.
  destruct (isEmpty u || isEmpty f); [left; eexists; reflexivity|].
  unfold_calls.
  destruct be as [su af sf wf inf]; cbn.
  destruct af; cbn; try (left; eexists; reflexivity).
  destruct su as [uid|]; cbn; try (left; eexists; reflexivity).
  destruct (String.eqb uid u); cbn; try (left; eexists; reflexivity).
  destruct sf; cbn; try (left; eexists; reflexivity).
  destruct (filter (matches u f) t) as [|r [|r' l]] eqn:Hf; cbn.
  - destruct wf, inf; cbn; try (left; eexists; reflexivity);
      right; split; try reflexivity; now right.
  - destruct (VoteType_eqb (vote_type r) v) eqn:Ev.
    + apply VoteType_eqb_eq in Ev.
      destruct wf, inf; cbn; try (left; eexists; reflexivity);
        right; split; try reflexivity; left; exists r;
        split; try reflexivity; left; now split.
    + assert (vote_type r <> v)
        by (intro E; apply VoteType_eqb_eq in E; congruence).
      destruct wf, inf; cbn; try (left; eexists; reflexivity);
        right; split; try reflexivity; left; exists r;
        split; try reflexivity; right; now split.
  - destruct wf, inf; cbn; try (left; eexists; reflexivity);
      right; split; try reflexivity; now right.
Qed.

Lemma withoutVote_shorter u f t r :
  filter (matches u f) t = [r] ->
  (List.length (withoutVote u f t) < List.length t)%nat.
Proof.
  intro H. unfold withoutVote.
  pose proof (filter_length (matches u f) t) as Hlen.
  rewrite H in Hlen. cbn in Hlen. lia.
Qed.

Lemma retyped_changes u f v t r :
  filter (matches u f) t = [r] -> vote_type r <> v ->
  map (retyped u f v) t <> t.
Proof.
  intros H Hv E.
  assert (Hin : In r t /\ matches u f r = true).
  { apply filter_In. rewrite H. now left. }
  destruct Hin as [Hin Hm].
  assert (Hfix : forall x, In x t -> retyped u f v x = x).
  { clear -E. induction t as [|a t IH]; [intros x []|].
    cbn in E. injection E as Ea Et. intros x [<- | Hx]; auto. }
  specialize (Hfix r Hin). unfold retyped in Hfix. rewrite Hm in Hfix.
  apply Hv. now rewrite <- Hfix.
Qed.

(** X14: a run returns [{ success: true }] exactly when it changed the
    table; every run that returns an error, for a missing id, a failed
    authentication, a failed lookup, a failed write or a thrown exception,
    leaves the table as it was. *)
Theorem X14_success_iff_table_changed be u f v t :
  (fst (castVoteAction be u f v t) = Returned success <->
   snd (castVoteAction be u f v t) <> t) /\
  ((exists msg, fst (castVoteAction be u f v t) = Returned (error msg)) <->
   snd (castVoteAction be u f v t) = t).
Proof.
  destruct (castVoteAction_outcome be u f v t) as [[msg E] | [Hs Hw]].
  - rewrite E. cbn [fst snd]. split; split.
    + discriminate.
    + intro H. now contradiction H.
    + reflexivity.
    + intros _. now exists msg.
  - assert (Hch : snd (castVoteAction be u f v t) <> t).
    { destruct Hw as [[r [Hr [[_ E] | [Hv E]]]] | E]; rewrite E.
      - intro H. pose proof (withoutVote_shorter u f t r Hr) as Hlt.
        rewrite H in Hlt. lia.
      - now apply (retyped_changes u f v t r).
      - intro H. apply (f_equal (@List.length _)) in H.
        rewrite length_app in H. cbn in H. lia. }
    rewrite Hs. split; split.
    + intros _. exact Hch.
    + reflexivity.
    + intros [msg H]. discriminate H.
    + intro H. contradiction.
Qed.

(** X15: nobody votes for somebody else.  When the authenticated user is
    not the user the vote is cast for (or nobody is signed in, or an id is
    empty), the run returns an error and the table is unchanged. *)
Theorem X15_vote_requires_own_session be u f v t :
  sessionUser be <> Some u \/ u = ""%string \/ f = ""%string ->
  (exists msg, fst (castVoteAction be u f v t) = Returned (error msg)) /\
  snd (castVoteAction be u f v t) = t.
Proof.
  intro H.
  assert (E : exists msg, castVoteAction be u f v t = (Returned (error msg), t)).
  { unfold castVoteAction, isEmpty.
    destruct (String.eqb_spec u "") as [Hu|Hu]; [eexists; reflexivity|].
    destruct (String.eqb_spec f "") as [Hf|Hf]; [eexists; reflexivity|].
    cbn [orb]. destruct H as [H | [H | H]]; try contradiction.
    unfold_calls. destruct be as [su af sf wf inf]; cbn in *.
    destruct af; cbn; try (eexists; reflexivity).
    destruct su as [uid|]; cbn; try (eexists; reflexivity).
    destruct (String.eqb_spec uid u) as [->|Hne]; [now contradiction H|].
    cbn. eexists; reflexivity. }
  destruct E as [msg E]. rewrite E. split; [now exists msg | reflexivity].
Qed.

Lemma X15_vote_requires_own_session_witness :
  snd (castVoteAction (aliceBackend Healthy) "bob" "f1" upvote votes0) = votes0.
Proof.
  refine (proj2 (X15_vote_requires_own_session
                   (aliceBackend Healthy) "bob" "f1" upvote votes0 _)).
  left. discriminate.
Defined.

Lemma VoteType_eqb_refl v : VoteType_eqb v v = true.
Proof. now destruct v. Qed.

Lemma filter_matches_insert u f v (t : Table) :
  filter (matches u f) (t ++ [newVote u f v])
  = filter (matches u f) t ++ [newVote u f v].
Proof.
  rewrite filter_app. cbn. unfold matches, newVote. cbn.
  now rewrite !String.eqb_refl.
Qed.

Lemma withoutVote_none u f (t : Table) :
  filter (matches u f) t = [] -> withoutVote u f t = t.
Proof.
  unfold withoutVote. induction t as [|r t IH]; cbn; [reflexivity|].
  destruct (matches u f r) eqn:E; cbn; [discriminate|].
  intro H. now rewrite IH.
Qed.

(** X16: what a vote means to the user.  With a backend that answers and
    at most one row per pair, after casting [v] the user's vote on the
    finding is removed if it was [v], and is [v] otherwise (no vote before,
    or the opposite vote). *)
Theorem X16_vote_after_cast be u f v t :
  atMostOnePerPair t ->
  u <> ""%string -> f <> ""%string -> writesFor be u ->
  currentVote u f (snd (castVoteAction be u f v t))
  = match currentVote u f t with
    | Some w => if VoteType_eqb w v then None else Some v
    | None => Some v
    end.
Proof.
  intros Hinv Hu Hf Hbe.
  rewrite (castVoteAction_healthy be u f v t Hu Hf Hbe). cbn [snd].
  unfold currentVote.
  destruct (single_or_none u f t Hinv) as [[r Hr] | Hnone].
  - rewrite Hr. destruct (VoteType_eqb (vote_type r) v) eqn:E.
    + replace (filter (matches u f) (withoutVote u f t)) with (@nil VoteRow);
        [reflexivity|].
      symmetry. unfold withoutVote. apply filter_nil_of_none.
      intros a Ha. apply filter_In in Ha. destruct Ha as [_ Ha].
      now apply negb_true_iff in Ha.
    + rewrite filter_map_retyped, Hr. cbn. unfold retyped.
      assert (Hm : matches u f r = true).
      { assert (Hin : In r (filter (matches u f) t)) by (rewrite Hr; now left).
        now apply filter_In in Hin. }
      now rewrite Hm.
  - rewrite Hnone, filter_matches_insert, Hnone. reflexivity.
Qed.

Lemma X16_vote_after_cast_witness :
  currentVote "alice" "f1"
    (snd (castVoteAction (aliceBackend Healthy) "alice" "f1" downvote votes0))
  = Some downvote.
Proof.
  exact (X16_vote_after_cast (aliceBackend Healthy) "alice" "f1" downvote
           votes0 votes0_atMostOne ltac:(discriminate) ltac:(discriminate)
           ltac:(repeat split)).
Defined.

Lemma retyped_none u f v (t : Table) :
  filter (matches u f) t = [] -> map (retyped u f v) t = t.
Proof.
  induction t as [|r t IH]; cbn; [reflexivity|].
  unfold retyped at 1. destruct (matches u f r); [discriminate|].
  intro H. now rewrite IH.
Qed.

Lemma retyped_newVote u f v w :
  retyped u f w (newVote u f v) = newVote u f w.
Proof.
  unfold retyped, matches, newVote. cbn. now rewrite !String.eqb_refl.
Qed.

(** X17: the toggle composes.  For a user without a vote on the finding
    and a backend that answers both times, casting the same vote twice
    restores the table exactly, and casting a vote and then the opposite
    one leaves exactly one row for the pair, the last one, with the
    opposite type. *)
Theorem X17_toggle_round_trip be1 be2 u f v t :
  filter (matches u f) t = [] ->
  u <> ""%string -> f <> ""%string -> writesFor be1 u -> writesFor be2 u ->
  snd (castVoteAction be2 u f v (snd (castVoteAction be1 u f v t))) = t /\
  snd (castVoteAction be2 u f (opposite v) (snd (castVoteAction be1 u f v t)))
  = t ++ [newVote u f (opposite v)].
Proof.
  intros Hnone Hu Hf Hbe1 Hbe2.
  rewrite (castVoteAction_healthy be1 u f v t Hu Hf Hbe1). cbn [snd].
  rewrite Hnone.
  rewrite !(castVoteAction_healthy be2 u f _ _ Hu Hf Hbe2). cbn [snd].
  rewrite filter_matches_insert, Hnone. cbn [app vote_type newVote].
  rewrite VoteType_eqb_refl.
  replace (VoteType_eqb v (opposite v)) with false by now destruct v.
  split.
  - unfold withoutVote. rewrite (filter_others_insert u f v t).
    now apply withoutVote_none.
  - rewrite map_app, (retyped_none u f (opposite v) t Hnone). cbn.
    now rewrite retyped_newVote.
Qed.

Lemma X17_toggle_round_trip_witness :
  snd (castVoteAction (aliceBackend Healthy) "alice" "f2" upvote
         (snd (castVoteAction (aliceBackend Throws) "alice" "f2" upvote votes0)))
  = votes0.
Proof.
  refine (proj1 (X17_toggle_round_trip
                   (aliceBackend Throws) (aliceBackend Healthy)
                   "alice" "f2" upvote votes0 eq_refl _ _ _ _));
    [discriminate | discriminate | repeat split | repeat split].
Defined.

End VoteSemantics.

(* ================================================================== *)
(** * Properties of the finding and report actions *)

Ltac unfold_acts :=
  unfold FindingActions.try_catchA, FindingActions.bindA,
    FindingActions.getUserA, FindingActions.insertA,
    FindingActions.redirectA, FindingActions.revalidatePathA,
    FindingActions.retA, FindingActions.throwA.

Section Findings.
Import CommunityActions FindingActions.

Variable Json : Type.
Variable JSON_parse : string -> option Json.
Variable trim : string -> string.

Local Abbreviation createFindingAction :=
  (createFindingAction Json JSON_parse trim).
Local Abbreviation shareFindingAction := (shareFindingAction Json).
Local Abbreviation FindingRow := (FindingRow Json).

(** X18: [createFindingAction] appends at most one row and changes nothing
    else.  A row is appended only for a signed-in user, who becomes its
    author, with the trimmed title and content of the form, both non-empty,
    and with a chart configuration only if the form field parsed. *)
Theorem X18_created_finding_is_validated be formData (t : list FindingRow) :
  snd (createFindingAction be formData t) = t \/
  exists row,
    snd (createFindingAction be formData t) = t ++ [row] /\
    f_sessionUser be = Some (author_id Json row) /\
    title Json row = trimmed trim (fd_title formData) /\
    title Json row <> ""%string /\
    content Json row = trimmed trim (fd_content formData) /\
    content Json row <> ""%string /\
    experiment_id Json row = orNull (fd_experimentId formData) /\
    (forall c, chart_config Json row = Some c ->
       exists str j, fd_chartConfig formData = Some str /\
                     JSON_parse str = Some j /\ c = ParsedConfig Json j).
Proof.
  unfold FindingActions.createFindingAction. unfold_acts.
  destruct be as [su af inf nid rf]; cbn.
  destruct af; cbn; try (now left).
  destruct su as [uid|]; cbn; try (now left).
  unfold blank, trimmed.
  destruct (fd_title formData) as [ti|]; cbn; try (now left).
  destruct (String.eqb_spec (trim ti) "") as [Et|Et]; cbn; try (now left).
  destruct (fd_content formData) as [co|]; cbn; try (now left).
  destruct (String.eqb_spec (trim co) "") as [Ec|Ec]; cbn; try (now left).
  unfold orNull at 1.
  destruct (fd_chartConfig formData) as [str|] eqn:Ecfg; cbn.
  - destruct (String.eqb str ""); cbn.
    + destruct inf, rf; cbn; try (now left);
        right; eexists; repeat split; cbn; try assumption; discriminate.
    + destruct (JSON_parse str) as [j|] eqn:Ej; cbn; try (now left).
      destruct inf, rf; cbn; try (now left);
        right; eexists; repeat split; cbn; try assumption;
        intros c Hc; injection Hc as <-; exists str, j; auto.
  - destruct inf, rf; cbn; try (now left);
      right; eexists; repeat split; cbn; try assumption; discriminate.
Qed.

(** X19: the checks of [createFindingAction] come in a fixed order and each
    rejection leaves the table unchanged: without a confirmed session the
    form is not even looked at; for a signed-in user a blank title is
    reported first, then a blank content, then a chart configuration that
    does not parse. *)
Theorem X19_create_finding_rejections be formData (t : list FindingRow) :
  (f_auth_fault be = Healthy -> f_sessionUser be = None ->
   createFindingAction be formData t
   = (Returned (Some "You must be logged in to create a finding"%string), t)) /\
  (forall uid, signedIn be uid ->
   (blank trim (fd_title formData) = true ->
    createFindingAction be formData t
    = (Returned (Some "Title is required"%string), t)) /\
   (blank trim (fd_title formData) = false ->
    blank trim (fd_content formData) = true ->
    createFindingAction be formData t
    = (Returned (Some "Content is required"%string), t)) /\
   (blank trim (fd_title formData) = false ->
    blank trim (fd_content formData) = false ->
    forall str, orNull (fd_chartConfig formData) = Some str ->
    JSON_parse str = None ->
    createFindingAction be formData t
    = (Returned (Some "Invalid chart configuration"%string), t))).
Proof.
  unfold FindingActions.createFindingAction. unfold_acts. split.
  - intros Ha Hs. now rewrite Ha, Hs.
  - intros uid [Hs Ha]. rewrite Ha, Hs. cbn. split; [|split].
    + now intros ->.
    + now intros -> ->.
    + intros -> -> str -> Hp. now rewrite Hp.
Qed.

(** X20: [shareFindingAction] either throws and leaves the table unchanged
    or appends exactly one row, whose author is the signed-in user and
    whose title and content are stored as given.  The row carries the
    context of its type only: a chart configuration and no experiment for
    type chart, no chart configuration for type experiment; never both. *)
Theorem X20_shared_finding_context be data (t : list FindingRow) :
  (fst (shareFindingAction be data t) = Thrown /\
   snd (shareFindingAction be data t) = t) \/
  exists row,
    shareFindingAction be data t = (Returned (f_newId be), t ++ [row]) /\
    f_sessionUser be = Some (author_id Json row) /\
    title Json row = sd_title data /\
    content Json row = sd_content data /\
    (sd_type data = chart ->
     chart_config Json row
     = Some (SelectionConfig Json (sd_primaryMetricId data)
                             (sd_comparisonMetricId data) (sd_dateRange data)) /\
     experiment_id Json row = None) /\
    (sd_type data = experiment ->
     chart_config Json row = None /\
     experiment_id Json row = orNull (sd_experimentId data)) /\
    ~ (chart_config Json row <> None /\ experiment_id Json row <> None).
Proof.
  unfold FindingActions.shareFindingAction. unfold_acts.
  destruct be as [su af inf nid rf]; cbn.
  destruct af; cbn; try (left; split; reflexivity).
  destruct su as [uid|]; cbn; try (left; split; reflexivity).
  destruct inf; cbn; try (left; split; reflexivity).
  right. eexists. split; [reflexivity|].
  destruct (sd_type data); cbn; repeat split;
    try discriminate; try (intros [H1 H2]; congruence).
Qed.

End Findings.

Section Reports.
Import CommunityActions FindingActions.

(** X21: a report is stored exactly when [reportFindingAction] returns
    success: then one row with the user, the finding and the reason (null
    for an empty reason) is appended; every error leaves the table
    unchanged.  A report for another user than the signed-in one is an
    error. *)
Theorem X21_report_stored_iff_success be userId findingId reason
        (t : list ReportRow) :
  (reportFindingAction be userId findingId reason t
   = (Returned success, t ++ [reportRow userId findingId reason]) \/
   exists msg,
     reportFindingAction be userId findingId reason t
     = (Returned (error msg), t)) /\
  (f_sessionUser be <> Some userId ->
   exists msg,
     reportFindingAction be userId findingId reason t
     = (Returned (error msg), t)).
Proof.
  unfold reportFindingAction, reportRow.
  destruct (isEmpty userId || isEmpty findingId);
    [split; [right|intros _]; eexists; reflexivity|].
  unfold_acts. destruct be as [su af inf nid rf]; cbn.
  destruct af; cbn; try (split; [right|intros _]; eexists; reflexivity).
  destruct su as [uid|]; cbn; try (split; [right|intros _]; eexists; reflexivity).
  destruct (String.eqb_spec uid userId) as [->|Hne]; cbn;
    try (split; [right|intros _]; eexists; reflexivity).
  split; [|intro H; now contradiction H].
  destruct inf; cbn; [now left | right; eexists; reflexivity
                     | right; eexists; reflexivity].
Qed.

(** X22: reports are not toggled.  Unlike a vote, a second report by the
    same user on the same finding does not replace or remove the first:
    with a backend that answers, both rows are stored. *)
Theorem X22_reports_accumulate be1 be2 userId findingId reason1 reason2
        (t : list ReportRow) :
  userId <> ""%string -> findingId <> ""%string ->
  reportsFor be1 userId -> reportsFor be2 userId ->
  snd (reportFindingAction be2 userId findingId reason2
         (snd (reportFindingAction be1 userId findingId reason1 t)))
  = t ++ [reportRow userId findingId reason1;
          reportRow userId findingId reason2].
Proof.
  intros Hu Hf (Hs1 & Ha1 & Hi1) (Hs2 & Ha2 & Hi2).
  unfold reportFindingAction, isEmpty.
  apply String.eqb_neq in Hu, Hf. rewrite Hu, Hf. cbn [orb].
  unfold_acts. rewrite Ha1, Hs1, Hi1, Ha2, Hs2, Hi2. cbn.
  rewrite String.eqb_refl. cbn. now rewrite <- app_assoc.
Qed.

Lemma X22_reports_accumulate_witness :
  snd (reportFindingAction carolBackend "carol" "f1" ""
         (snd (reportFindingAction carolBackend "carol" "f1" "spam" [])))
  = [reportRow "carol" "f1" "spam"; reportRow "carol" "f1" ""].
Proof.
  exact (X22_reports_accumulate carolBackend carolBackend "carol" "f1"
           "spam" "" [] ltac:(discriminate) ltac:(discriminate)
           ltac:(repeat split) ltac:(repeat split)).
Defined.

End Reports.

(* ================================================================== *)
(** * Further properties of the lab page *)

Section LabTabs.
Import Experiments LabPage.

(** X23: the memo with its side effect is a three-way split of the
    experiments.  The active tab holds, in order, the active experiments
    that are not overdue; one completing mutation is fired, in order, for
    each overdue active experiment; together with the completed tab every
    experiment is accounted for exactly once. *)
Theorem X23_tabs_split_experiments today experiments :
  activeExperiments today experiments = filter (running today) experiments /\
  autoMutations today experiments
  = map (fun exp => {| target := id exp; newStatus := COMPLETED |})
        (filter (overdue today) experiments) /\
  (List.length (activeExperiments today experiments)
   + List.length (completedExperiments experiments)
   + List.length (autoMutations today experiments)
   = List.length experiments)%nat.
Proof.
  unfold activeExperiments, autoMutations, completedExperiments.
  induction experiments as [|exp rest (IHa & IHm & IHl)];
    [repeat split|].
  cbn [activeExperimentsMemo filter].
  destruct (activeExperimentsMemo today rest) as [kept firedRest].
  cbn [fst snd] in *. unfold activeStep, running, overdue.
  destruct (status exp); cbn [Status_eqb andb negb];
    [destruct (String.ltb (end_date exp) today); cbn [negb]|];
    cbn [fst snd app map List.length]; rewrite ?IHa, ?IHm;
    (split; [reflexivity|]); (split; [reflexivity|]);
    rewrite <- ?IHa, <- ?IHm; lia.
Qed.

Lemma find_none_iff {A} (p : A -> bool) (l : list A) :
  find p l = None <-> forall a, In a l -> p a = false.
Proof.
  induction l as [|a l IH]; cbn; [tauto|].
  destruct (p a) eqn:E.
  - split; [discriminate|]. intro H. specialize (H a (or_introl eq_refl)).
    congruence.
  - rewrite IH. split.
    + intros H b [<- | Hb]; auto.
    + intros H b Hb. apply H. now right.
Qed.

(** X24: sharing from the lab page is possible only from the completed tab.
    On the active tab the share context is always undefined; on the
    completed tab it is undefined exactly when no experiment is completed,
    and otherwise names a completed experiment of the list. *)
Theorem X24_share_only_completed today experiments :
  getShareContext active today experiments = None /\
  (getShareContext completed today experiments = None <->
   forall exp, In exp experiments -> status exp <> COMPLETED) /\
  (forall i, getShareContext completed today experiments = Some i ->
     exists exp, In exp experiments /\ status exp = COMPLETED /\ id exp = i).
Proof.
  unfold getShareContext. cbn [experimentsToDisplay]. split; [|split].
  - replace (find (fun exp => Status_eqb (status exp) COMPLETED)
                  (activeExperiments today experiments)) with (@None Experiment);
      [reflexivity|].
    symmetry. apply find_none_iff. intros exp Hin.
    apply activeExperiments_sound in Hin. destruct Hin as (_ & Hs & _).
    now rewrite Hs.
  - destruct (find _ (completedExperiments experiments)) as [c|] eqn:E.
    + split; [discriminate|]. intro H. exfalso.
      apply find_some in E. destruct E as [Hin Hc].
      apply completedExperiments_sound in Hin. destruct Hin as [Hin Hs].
      now apply (H c Hin).
    + split; [|reflexivity]. intros _ exp Hin Hs.
      assert (Hc : In exp (completedExperiments experiments))
        by (apply completedExperiments_sound; now split).
      pose proof (proj1 (find_none_iff _ _) E exp Hc) as Hf.
      cbn in Hf. rewrite Hs in Hf. discriminate Hf.
  - intros i H.
    destruct (find _ (completedExperiments experiments)) as [c|] eqn:E;
      [|discriminate].
    injection H as <-. apply find_some in E. destruct E as [Hin _].
    apply completedExperiments_sound in Hin. destruct Hin as [Hin Hs].
    now exists c.
Qed.

End LabTabs.

Section Progress.
Import Js Experiments LabPage.

Variable parseDate : string -> Z.
Variable offset : Z.

Local Abbreviation getExperimentProgress :=
  (getExperimentProgress parseDate offset).
Local Abbreviation durationDays := (durationDays parseDate).

Lemma Math_ceil_toDays (n : Z) :
  Math_ceil (toDays n) = (- ((- n) / msPerDay))%Z.
Proof.
  unfold Math_ceil, toDays, Qceiling. f_equal.
  rewrite Zdiv_Qdiv. apply Qfloor_comp.
  rewrite inject_Z_opp. unfold msPerDay. field. discriminate.
Qed.

(** Whole days are counted as they are, a started day counts as one. *)
Lemma Math_ceil_whole (k : Z) : Math_ceil (toDays (k * msPerDay)) = k.
Proof.
  rewrite Math_ceil_toDays. unfold msPerDay.
  replace (- (k * (1000 * 60 * 60 * 24)))%Z
    with ((- k) * (1000 * 60 * 60 * 24))%Z by ring.
  rewrite Z.div_mul by discriminate. lia.
Qed.

Lemma Math_ceil_part (k r : Z) :
  (0 < r < msPerDay)%Z -> Math_ceil (toDays (k * msPerDay + r)) = (k + 1)%Z.
Proof.
  intro Hr. rewrite Math_ceil_toDays. unfold msPerDay in *.
  replace (- (k * (1000 * 60 * 60 * 24) + r))%Z
    with ((1000 * 60 * 60 * 24 - r) + (- (k + 1)) * (1000 * 60 * 60 * 24))%Z
    by ring.
  rewrite Z.div_add by discriminate.
  rewrite Z.div_small by lia. lia.
Qed.

(** Local midnight is a whole number of days away from any other. *)
Lemma setHours_start_aligned (t : Z) :
  exists q : Z, setHours_start offset t = (q * msPerDay - offset)%Z.
Proof.
  unfold setHours_start. exists ((t + offset) / msPerDay)%Z.
  pose proof (Z.div_mod (t + offset) msPerDay ltac:(discriminate)) as H.
  lia.
Qed.

(** X25: while an experiment is in progress the card never reads "Day n of
    n".  In the status 'active' the day shown is at least 1 and strictly
    below the total shown, the total duration is positive, and the
    percentage is at least 0 and strictly below 100. *)
Theorem X25_day_counter_below_total now startDate endDate :
  progressStatus (getExperimentProgress now startDate endDate)
  = Progress.active ->
  (1 <= daysElapsed (getExperimentProgress now startDate endDate))%Z /\
  (daysElapsed (getExperimentProgress now startDate endDate)
   < progressTotalDays (getExperimentProgress now startDate endDate))%Z /\
  0 <= percentage (getExperimentProgress now startDate endDate) /\
  percentage (getExperimentProgress now startDate endDate) < 100.
Proof.
  unfold LabPage.getExperimentProgress.
  destruct (setHours_start_aligned now) as [qn Hn].
  destruct (setHours_start_aligned (parseDate startDate)) as [qs Hs].
  destruct (setHours_start_aligned (parseDate endDate)) as [qe He].
  unfold setHours_end. rewrite Hn, Hs, He.
  set (D := msPerDay) in *.
  assert (HD : (D = 86400000)%Z) by reflexivity.
  replace (qn * D - offset - (qs * D - offset))%Z with ((qn - qs) * D)%Z by ring.
  replace (qe * D - offset + (D - 1) - (qs * D - offset))%Z
    with ((qe - qs) * D + (D - 1))%Z by ring.
  destruct (Z.ltb_spec ((qn - qs) * D) 0) as [Hup|Hstarted];
    [discriminate|].
  destruct (Z.ltb_spec (qe * D - offset + (D - 1)) (qn * D - offset))
    as [Hdone|Hrun]; [discriminate|].
  intros _. cbn [daysElapsed progressTotalDays percentage].
  unfold D at 1 2. rewrite Math_ceil_whole.
  rewrite Math_ceil_part by (unfold D, msPerDay; lia).
  assert (Hj : (0 <= qn - qs)%Z) by nia.
  assert (Hk : (qn - qs <= qe - qs)%Z) by nia.
  split; [lia|]. split; [lia|].
  set (e := inject_Z ((qn - qs) * D)).
  set (tot := inject_Z ((qe - qs) * D + (D - 1))).
  assert (He0 : 0 <= e).
  { unfold e. change 0 with (inject_Z 0). rewrite <- Zle_Qle. nia. }
  assert (Het : e < tot).
  { unfold e, tot. rewrite <- Zlt_Qlt. nia. }
  assert (Htot : 0 < tot) by (eapply Qle_lt_trans; eassumption).
  assert (Hr0 : 0 <= e / tot).
  { apply Qle_shift_div_l; [exact Htot|]. now rewrite Qmult_0_l. }
  assert (Hr1 : e / tot < 1).
  { apply Qlt_shift_div_r; [exact Htot|]. now rewrite Qmult_1_l. }
  set (x := e / tot * 100).
  assert (Hx0 : 0 <= x) by (unfold x; set (q := e / tot) in *; clearbody q; lra).
  assert (Hx1 : x < 100) by (unfold x; set (q := e / tot) in *; clearbody q; lra).
  unfold Math_min, Math_max. split.
  - apply Q.min_glb; [discriminate | apply Q.le_max_l].
  - eapply Qle_lt_trans; [apply Q.le_min_r|].
    apply Q.max_lub_lt; [reflexivity | exact Hx1].
Qed.

(** X26: in a time zone with a fixed offset from UTC, whatever the
    offset, and for date-only dates (parsed as midnight UTC), the total of
    the progress line is one more than the number of days of the duration
    badge: an experiment of "10 days" is shown as "Day .. of 11"; and the
    duration counts both end days.  A change of the zone's offset between
    the two dates is not covered. *)
Theorem X26_progress_total_exceeds_duration now startDate endDate :
  (parseDate startDate mod msPerDay = 0)%Z ->
  (parseDate endDate mod msPerDay = 0)%Z ->
  progressTotalDays (getExperimentProgress now startDate endDate)
  = (durationDays startDate endDate + 1)%Z /\
  durationDays startDate endDate
  = ((parseDate endDate - parseDate startDate) / msPerDay + 1)%Z.
Proof.
  intros Hs He.
  assert (Hdur : durationDays startDate endDate
                 = ((parseDate endDate - parseDate startDate) / msPerDay + 1)%Z).
  { unfold LabPage.durationDays.
    pose proof (Z.div_mod (parseDate startDate) msPerDay ltac:(discriminate)) as Es.
    pose proof (Z.div_mod (parseDate endDate) msPerDay ltac:(discriminate)) as Ee.
    rewrite Hs in Es. rewrite He in Ee.
    set (ks := (parseDate startDate / msPerDay)%Z) in *.
    set (ke := (parseDate endDate / msPerDay)%Z) in *.
    replace (parseDate endDate - parseDate startDate)%Z
      with ((ke - ks) * msPerDay)%Z by lia.
    rewrite Math_ceil_whole, Z.div_mul by discriminate. reflexivity. }
  split; [|exact Hdur]. rewrite Hdur.
  assert (Htotal : forall p : ExperimentProgress,
             p = getExperimentProgress now startDate endDate ->
             progressTotalDays p
             = (Math_ceil (toDays (setHours_end offset (parseDate endDate)
                                   - setHours_start offset (parseDate startDate)))
                + 1)%Z).
  { intros p ->. unfold LabPage.getExperimentProgress.
    destruct (_ <? 0)%Z; [reflexivity|].
    destruct (_ <? _)%Z; reflexivity. }
  rewrite (Htotal _ eq_refl).
  unfold setHours_end, setHours_start.
  pose proof (Z.div_mod (parseDate startDate) msPerDay ltac:(discriminate)) as Es.
  pose proof (Z.div_mod (parseDate endDate) msPerDay ltac:(discriminate)) as Ee.
  rewrite Hs in Es. rewrite He in Ee.
  set (ks := (parseDate startDate / msPerDay)%Z) in *.
  set (ke := (parseDate endDate / msPerDay)%Z) in *.
  assert (Ms : ((parseDate startDate + offset) mod msPerDay
                = offset mod msPerDay)%Z).
  { rewrite Es. replace (msPerDay * ks + 0 + offset)%Z
      with (offset + ks * msPerDay)%Z by ring.
    apply Z.mod_add. discriminate. }
  assert (Me : ((parseDate endDate + offset) mod msPerDay
                = offset mod msPerDay)%Z).
  { rewrite Ee. replace (msPerDay * ke + 0 + offset)%Z
      with (offset + ke * msPerDay)%Z by ring.
    apply Z.mod_add. discriminate. }
  rewrite Ms, Me.
  replace (parseDate endDate - offset mod msPerDay + (msPerDay - 1)
           - (parseDate startDate - offset mod msPerDay))%Z
    with ((ke - ks) * msPerDay + (msPerDay - 1))%Z by lia.
  rewrite Math_ceil_part by (unfold msPerDay; lia).
  replace (parseDate endDate - parseDate startDate)%Z
    with ((ke - ks) * msPerDay)%Z by lia.
  rewrite Z.div_mul by discriminate. lia.
Qed.

End Progress.

Section ProgressSamples.
Import Js Experiments LabPage.

Lemma X25_day_counter_below_total_witness :
  let p := getExperimentProgress sampleParseDate oneHourAhead noonOfMarch5
                                 "2024-03-01" "2024-03-10" in
  progressStatus p = Progress.active /\
  (1 <= daysElapsed p)%Z /\ (daysElapsed p < progressTotalDays p)%Z.
Proof.
  intro p.
  destruct (X25_day_counter_below_total sampleParseDate oneHourAhead
              noonOfMarch5 "2024-03-01" "2024-03-10" eq_refl)
    as (Hone & Hbelow & _).
  split; [reflexivity|]. split; [exact Hone | exact Hbelow].
Defined.

Lemma X26_progress_total_exceeds_duration_witness :
  durationDays sampleParseDate "2024-03-01" "2024-03-10" = 10%Z /\
  progressTotalDays
    (getExperimentProgress sampleParseDate oneHourAhead noonOfMarch5
                           "2024-03-01" "2024-03-10")
  = (durationDays sampleParseDate "2024-03-01" "2024-03-10" + 1)%Z.
Proof.
  split; [reflexivity|].
  exact (proj1 (X26_progress_total_exceeds_duration
                  sampleParseDate oneHourAhead noonOfMarch5
                  "2024-03-01" "2024-03-10" eq_refl eq_refl)).
Defined.

End ProgressSamples.

Section AuthPages.
Import AuthLayout.

(** X27: a signed-in user sees an authentication page only at
    [/update-password].  Whenever the layout redirects, it goes to
    [/dashboard] and nothing of the page is rendered; the page itself is
    rendered exactly when loading is over and the path is
    [/update-password] or nobody is signed in. *)
Theorem X27_auth_pages_for_guests user loading pathname :
  (forall target, redirectsTo user loading pathname = Some target ->
     target = "/dashboard"%string /\ render user loading pathname = Nothing) /\
  (render user loading pathname = Children <->
   loading = false /\ (pathname = "/update-password"%string \/ user = false)).
Proof.
  unfold redirectsTo, render.
  destruct (String.eqb_spec pathname "/update-password") as [Ep|Ep];
    destruct loading, user; cbn; split;
    try (intros target H; try discriminate H; injection H as <-; now split);
    split; try discriminate; try tauto;
    intros [H1 H2]; try discriminate H1;
    destruct H2 as [H2|H2]; try contradiction; discriminate H2.
Qed.

End AuthPages.
